(** * go-chartmuseum: the ChartMuseum API client, embedded in Rocq

    The development follows [pkg/chartmuseum/client.go] and
    [pkg/chartmuseum/charts.go].  Go values are modelled as follows.

    - A Go [string] is a [string] (a sequence of bytes).
    - A pointer that the code dereferences ([*string]) is an [option]; a
      dereference of [nil] panics, which the monad [M] below records.
    - A Go result pair (a pointer and an [error]) is a pair of options,
      [None] being [nil].
    - [*os.File], the request log and the network are explicit state
      ([World]) threaded through a state monad with panics.
    - The Go standard library is not part of the package.  What can be
      written down shortly is defined ([strings.HasSuffix], the part of
      [fmt] the package uses, [os.File] on files, directories and pipes,
      [ioutil.ReadAll], [http.Header.Set]); the rest ([net/url],
      [encoding/json], [http.DetectContentType], method validation) is the
      interface [GoLib], over which every definition is parametric. *)

From Stdlib Require Import ZArith Lia Ascii String.
From stdpp Require Import base strings list gmap.

Local Open Scope string_scope.
Local Open Scope Z_scope.

(* ===================================================================== *)
(** ** Errors *)
(* ===================================================================== *)

(** Go [error] values, by the concrete type behind the interface. *)
Inductive error : Type :=
  | errorString (s : string)
      (** [errors.New] of the standard library, [fmt.Errorf] *)
  | fundamental (msg : string)
      (** [errors.New] and [errors.Errorf] of github.com/pkg/errors *)
  | withMessage (cause : error) (msg : string)
      (** [errors.Wrap] of github.com/pkg/errors *)
  | deadlineExceededError
      (** [context.DeadlineExceeded] *)
  | sysError (op path msg : string).
      (** [*os.PathError], [*url.Error] and the like *)

(** The [Error()] method. *)
Fixpoint Error_text (e : error) : string :=
  match e with
  | errorString s => s
  | fundamental msg => msg
  | withMessage cause msg => msg +:+ ": " +:+ Error_text cause
  | deadlineExceededError => "context deadline exceeded"
  | sysError op path msg => op +:+ " " +:+ path +:+ ": " +:+ msg
  end.

Definition io_EOF : error := errorString "EOF".
Definition context_Canceled : error := errorString "context canceled".
Definition context_DeadlineExceeded : error := deadlineExceededError.

(** [errors.Wrap(err, msg)] of pkg/errors: [nil] stays [nil]. *)
Definition errors_Wrap (err : option error) (msg : string) : option error :=
  match err with
  | None => None
  | Some e => Some (withMessage e msg)
  end.

(* ===================================================================== *)
(** ** strings and fmt *)
(* ===================================================================== *)

(** Go's test that a string differs from the empty string. *)
Definition nonempty (s : string) : bool := negb (String.eqb s "").

(** [strings.HasSuffix(s, suffix)]:
    [len(s) >= len(suffix) && s[len(s)-len(suffix):] == suffix]. *)
Definition HasSuffix (s suffix : string) : bool :=
  let n := String.length s in
  let k := String.length suffix in
  (k <=? n)%nat && String.eqb (String.substring (n - k) k s) suffix.

(** [strings.IndexByte(s, c) >= 0]. *)
Fixpoint has_byte (c : ascii) (s : string) : bool :=
  match s with
  | EmptyString => false
  | String d rest => Ascii.eqb c d || has_byte c rest
  end.

(** Bytes that start something other than a plain verb after ['%']: the
    flags, an argument index, a width or a precision. *)
Definition fmt_modifier (c : ascii) : bool :=
  existsb (Ascii.eqb c)
    ["#"; "0"; "+"; "-"; " "; "["; "*"; "."; "1"; "2"; "3"; "4"; "5"; "6";
     "7"; "8"; "9"]%char.

Definition is_ascii7 (c : ascii) : bool := (nat_of_ascii c <? 128)%nat.

(** [%!(EXTRA string=a, string=b)] for operands the format did not use. *)
Fixpoint fmt_extra_args (a : list string) : string :=
  match a with
  | [] => ""
  | [x] => "string=" +:+ x
  | x :: rest => "string=" +:+ x +:+ ", " +:+ fmt_extra_args rest
  end.

Definition fmt_extra (a : list string) : string :=
  match a with
  | [] => ""
  | _ => "%!(EXTRA " +:+ fmt_extra_args a +:+ ")"
  end.

(** The formatting loop of [fmt] ([doPrintf]) on string operands, for
    formats whose directives are plain: ['%'] followed directly by the
    verb.  [None] when the format leaves that fragment (flags, width,
    precision, argument index, a verb that is not 7-bit, a verb other than
    [s] and [v] applied to an operand).

    - text outside directives is copied;
    - [%%] is a percent sign;
    - [%s] and [%v] print the next operand;
    - a verb with no operand left prints [%!verb(MISSING)];
    - a ['%'] that ends the format prints [%!(NOVERB)];
    - operands left over are reported as [%!(EXTRA ...)]. *)
Fixpoint doPrintf (format : string) (a : list string) : option string :=
  match format with
  | EmptyString => Some (fmt_extra a)
  | String "%" EmptyString => Some ("%!(NOVERB)" +:+ fmt_extra a)
  | String "%" (String verb rest) =>
      if Ascii.eqb verb "%" then String "%" <$> doPrintf rest a
      else if fmt_modifier verb || negb (is_ascii7 verb) then None
      else match a with
           | [] => (fun s => "%!" +:+ String verb "(MISSING)" +:+ s)
                     <$> doPrintf rest a
           | x :: a' =>
               if Ascii.eqb verb "s" || Ascii.eqb verb "v"
               then (fun s => x +:+ s) <$> doPrintf rest a'
               else None
           end
  | String c rest => String c <$> doPrintf rest a
  end.

(* ===================================================================== *)
(** ** Data of the standard library the package handles *)
(* ===================================================================== *)

(** Results of library functions that return [(T, error)] with exactly one
    of the two set. *)
Inductive res (A : Type) : Type :=
  | Ok (a : A)
  | Err (e : error).
Arguments Ok {A} a.
Arguments Err {A} e.

Module url.
(** [url.URL]; the package reads and writes [Path] only. *)
Record URL : Type := mkURL {
  Scheme : string;
  Opaque : string;
  User : option (string * option string);
  Host : string;
  Path : string;
  RawPath : string;
  ForceQuery : bool;
  RawQuery : string;
  Fragment : string
}.

(** The assignment [u.Path = p]. *)
Definition set_Path (p : string) (u : URL) : URL :=
  mkURL (Scheme u) (Opaque u) (User u) (Host u) p (RawPath u)
        (ForceQuery u) (RawQuery u) (Fragment u).
End url.

Module context.
(** A [context.Context], as far as [Client.Do] looks at it: whether a
    receive from [ctx.Done()] succeeds at once, and what [ctx.Err()]
    returns, both at the moment of the test. *)
Record Context : Type := mkContext {
  Done : bool;
  Err : option error
}.

Definition Background : Context := mkContext false None.
End context.

Module os.
(** An open [*os.File]: a regular file, a directory, or a handle that
    cannot seek (a pipe, a terminal).  [data] is the bytes behind the handle
    and [offset] the position of the next read; [statErr], [readErr] and
    [seekErr] are the failures of [fstat], [read] and [lseek] on the handle,
    if any ([seekErr] is set on a handle that cannot seek). *)
Record File : Type := mkFile {
  Name : string;
  isDir : bool;
  data : string;
  offset : nat;
  statErr : option error;
  readErr : option error;
  seekErr : option error
}.

Record FileInfo : Type := mkFileInfo {
  Size : Z;
  IsDir : bool
}.

Definition set_offset (o : nat) (f : File) : File :=
  mkFile (Name f) (isDir f) (data f) o (statErr f) (readErr f) (seekErr f).

(** [file.Stat()]. *)
Definition Stat (f : File) : res FileInfo :=
  match statErr f with
  | Some e => Err e
  | None => Ok (mkFileInfo (Z.of_nat (String.length (data f))) (isDir f))
  end.

(** [file.Read(b)] with [len(b) = n]: the bytes read, the error, and the
    handle afterwards.  A failed read moves nothing; at the end of the
    file a read into a buffer that is not empty fails with [io.EOF]. *)
Definition Read (f : File) (n : nat) : (string * option error) * File :=
  match readErr f with
  | Some e => (("", Some e), f)
  | None =>
      if isDir f
      then (("", Some (sysError "read" (Name f) "is a directory")), f)
      else
        let chunk := String.substring (offset f) n (data f) in
        if (String.length chunk =? 0)%nat && (0 <? n)%nat
        then (("", Some io_EOF), f)
        else ((chunk, None), set_offset (offset f + String.length chunk) f)
  end.

(** [file.Seek(off, whence)]: the new position and the error.  A seek that
    fails moves nothing. *)
Definition Seek (f : File) (off : Z) (whence : Z) : res Z * File :=
  match seekErr f with
  | Some e => (Err e, f)
  | None =>
      let target :=
        if whence =? 0 then Some off
        else if whence =? 1 then Some (Z.of_nat (offset f) + off)
        else if whence =? 2 then Some (Z.of_nat (String.length (data f)) + off)
        else None in
      match target with
      | Some t =>
          if 0 <=? t then (Ok t, set_offset (Z.to_nat t) f)
          else (Err (sysError "seek" (Name f) "invalid argument"), f)
      | None => (Err (sysError "seek" (Name f) "invalid argument"), f)
      end
  end.

(** What a reader of the handle gets from the current position on: nothing
    when reads on the handle fail, else the bytes from [offset] to the end. *)
Definition remaining (f : File) : string :=
  match readErr f with
  | Some _ => ""
  | None =>
      if isDir f then ""
      else String.substring (offset f) (String.length (data f) - offset f) (data f)
  end.
End os.

Module http.
(** A request body: the [*bytes.Buffer] of [Client.NewRequest], or the
    [*os.File] handed to [Client.NewUploadRequest].  The file body is the
    handle itself: its content is read when the request is sent, from
    wherever the handle then stands. *)
Inductive Body : Type :=
  | BufferBody (b : string)
  | FileBody.

Record Request : Type := mkRequest {
  Method : string;
  URL : url.URL;
  Header : gmap string (list string);
  ReqBody : option Body;
  ContentLength : Z;
  Ctx : context.Context
}.

(** [req.Header.Set(key, value)], for keys in canonical form (the package
    only uses such keys). *)
Definition Header_Set (key value : string) (r : Request) : Request :=
  mkRequest (Method r) (URL r) (<[key := [value]]> (Header r)) (ReqBody r)
            (ContentLength r) (Ctx r).

(** [req.Header.Get(key)]: the first value, or the empty string. *)
Definition Header_Get (key : string) (r : Request) : string :=
  match Header r !! key with
  | Some (v :: _) => v
  | _ => ""
  end.

Definition set_ContentLength (n : Z) (r : Request) : Request :=
  mkRequest (Method r) (URL r) (Header r) (ReqBody r) n (Ctx r).

(** [req.WithContext(ctx)]. *)
Definition WithContext (ctx : context.Context) (r : Request) : Request :=
  mkRequest (Method r) (URL r) (Header r) (ReqBody r) (ContentLength r) ctx.

(** The body of a response as a reader: the bytes it yields, then the
    error that ends it ([None] for a clean end of stream). *)
Record ReadCloser : Type := mkReadCloser {
  bytes : string;
  failure : option error
}.

Record Response : Type := mkResponse {
  Status : string;
  StatusCode : Z;
  RespHeader : gmap string (list string);
  RespBody : ReadCloser
}.

(** What [httpClient.Do] returns, and how many bytes of the request body
    it took from the reader. *)
Record Exchange : Type := mkExchange {
  resp : option Response;
  err : option error;
  consumed : nat
}.

(** [*http.Client]: [Do] applied to a request and to the bytes its body
    reader can deliver. *)
Record Client : Type := mkClient {
  Do : Request → string → Exchange
}.
End http.

(** [ioutil.ReadAll(r)]: the slice is never [nil]. *)
Definition ioutil_ReadAll (r : http.ReadCloser) : option string * option error :=
  (Some (http.bytes r), http.failure r).

(* ===================================================================== *)
(** ** Data of the package (client.go, charts.go) *)
(* ===================================================================== *)

Definition userAgent : string := "go-chartmuseum".
Definition mediaType : string := "application/vnd.chartmuseum.v0+json".

(** [Response] wraps [*http.Response]: the embedded pointer and the
    response given to [parseResponse] are one object. *)
Record Response : Type := mkResponse {
  Response_ : http.Response;
  Message : string;
  Error : string;
  Saved : bool;
  Deleted : bool;
  Healthy : bool
}.

(** [Client].  The fields [common] and [ChartService] point back to the
    client itself; [ChartService] below holds the client instead. *)
Record Client : Type := mkClient {
  BaseURL : url.URL;
  UserAgent : string;
  httpClient : http.Client
}.

(** [type ChartService service], [service struct { client *Client }]. *)
Record ChartService : Type := mkChartService {
  client : Client
}.

Record ChartInfo : Type := mkChartInfo {
  Name : option string;
  Version : option string;
  Org : option string;
  Repo : option string
}.

(* ===================================================================== *)
(** ** The rest of the standard library, as an interface *)
(* ===================================================================== *)

Class GoLib : Type := {
  (** values of [interface{}] that are not [nil] *)
  Value : Type;
  (** [url.Parse(rawurl)] *)
  url_Parse : string → res url.URL;
  (** [u.Parse(ref)]: [ref] parsed and resolved against [u] *)
  URL_Parse : url.URL → string → res url.URL;
  (** [u.String()] *)
  URL_String : url.URL → string;
  (** [http.NewRequest(method, url, body)] *)
  http_NewRequest : string → string → option http.Body → res http.Request;
  (** a new request has no header fields, and the body it was given *)
  http_NewRequest_Header : ∀ m u b r,
    http_NewRequest m u b = Ok r → http.Header r = ∅;
  http_NewRequest_Body : ∀ m u b r,
    http_NewRequest m u b = Ok r → http.ReqBody r = b;
  (** [http.DefaultClient] *)
  http_DefaultClient : http.Client;
  (** [http.DetectContentType(data)] *)
  http_DetectContentType : string → string;
  (** [json.NewEncoder(buf)], [enc.SetEscapeHTML(escapeHTML)],
      [enc.Encode(v)]: the bytes written to [buf] *)
  json_Encode : bool → Value → res string;
  (** [json.Unmarshal(data, response)]: the struct afterwards (the decoder
      writes into it, also when it fails) and the error *)
  json_Unmarshal : string → Response → Response * option error;
  (** [fmt.Sprintf] on the formats [doPrintf] leaves out *)
  fmt_other : string → list string → string
}.

(* ===================================================================== *)
(** ** State, panics and the trace of calls *)
(* ===================================================================== *)

Inductive Event : Type :=
  | EvStat
  | EvRead (n : nat) (got : string)
  | EvSeek (off whence : Z)
  | EvNewRequest (method urlStr : string)
  | EvDo (req : http.Request) (payload : string).

(** The file handle given to [UploadChart] and the calls made so far,
    oldest first. *)
Record World : Type := mkWorld {
  file : os.File;
  trace : list Event
}.

Inductive Result (A : Type) : Type :=
  | Val (a : A)
  | Panic (msg : string).
Arguments Val {A} a.
Arguments Panic {A} msg.

Definition M (A : Type) : Type := World → Result A * World.

#[global] Instance M_ret : MRet M := λ A a w, (Val a, w).
#[global] Instance M_bind : MBind M := λ A B k m w,
  match m w with
  | (Val a, w') => k a w'
  | (Panic msg, w') => (Panic msg, w')
  end.

Definition panic {A} (msg : string) : M A := λ w, (Panic msg, w).
Definition log (e : Event) : M unit :=
  λ w, (Val (), mkWorld (file w) (trace w ++ [e])).
Definition get_file : M os.File := λ w, (Val (file w), w).
Definition put_file (f : os.File) : M unit := λ w, (Val (), mkWorld f (trace w)).

(** The panic of a dereference of [nil]. *)
Definition nil_dereference : string :=
  "runtime error: invalid memory address or nil pointer dereference".

(** [*p] for a [*string]. *)
Definition deref (p : option string) : M string :=
  match p with
  | Some s => mret s
  | None => panic nil_dereference
  end.

(** The traced forms of the calls on the file handle. *)
Definition file_Stat : M (res os.FileInfo) :=
  f ← get_file;
  log EvStat;;
  mret (os.Stat f).

Definition file_Read (n : nat) : M (string * option error) :=
  f ← get_file;
  let '(r, f') := os.Read f n in
  log (EvRead n r.1);;
  put_file f';;
  mret r.

Definition file_Seek (off whence : Z) : M (res Z) :=
  f ← get_file;
  let '(r, f') := os.Seek f off whence in
  log (EvSeek off whence);;
  put_file f';;
  mret r.

(** A pure call, recorded in the trace. *)
Definition traced {A} (e : Event) (a : A) : M A := log e;; mret a.

(** [n] zero bytes: what [make([]byte, n)] holds. *)
Fixpoint zeros (n : nat) : string :=
  match n with
  | O => ""
  | S n' => String "000" (zeros n')
  end.

(** A buffer of [n] zero bytes after a read of [got] into its start. *)
Definition filled (n : nat) (got : string) : string :=
  got +:+ zeros (n - String.length got).

(* ===================================================================== *)
(** ** client.go *)
(* ===================================================================== *)

Section Package.
Context `{lib : GoLib}.

(** [fmt.Sprintf(format, a...)] on string operands. *)
Definition Sprintf (format : string) (a : list string) : string :=
  default (fmt_other format a) (doPrintf format a).

(** [fmt.Errorf(format, a...)]. *)
Definition fmt_Errorf (format : string) (a : list string) : error :=
  errorString (Sprintf format a).

(** [errors.Errorf(format, a...)] and [errors.New(msg)] of pkg/errors. *)
Definition errors_Errorf (format : string) (a : list string) : error :=
  fundamental (Sprintf format a).
Definition errors_New (msg : string) : error := fundamental msg.

(** [NewClient(baseURL, httpClient)]. *)
Definition NewClient (baseURL : string) (httpClient : option http.Client)
  : option Client * option error :=
  if String.eqb baseURL ""
  then (None, Some (fmt_Errorf "ChartMuseum API - base URL can not be blank" []))
  else
    match url_Parse baseURL with
    | Err err => (None, Some err)
    | Ok baseEndpoint =>
        let baseEndpoint :=
          if negb (HasSuffix (url.Path baseEndpoint) "/")
          then url.set_Path (url.Path baseEndpoint +:+ "/") baseEndpoint
          else baseEndpoint in
        let httpClient :=
          match httpClient with
          | None => http_DefaultClient
          | Some h => h
          end in
        (Some (mkClient baseEndpoint userAgent httpClient), None)
    end.

(** The [buf] of [NewRequest]: [nil] without a body, else the buffer the
    encoder wrote, with [SetEscapeHTML(false)]. *)
Definition encode_body (body : option Value) : res (option http.Body) :=
  match body with
  | None => Ok None
  | Some v =>
      match json_Encode false v with
      | Err err => Err err
      | Ok b => Ok (Some (http.BufferBody b))
      end
  end.

(** [c.NewRequest(method, urlStr, body)]. *)
Definition NewRequest (c : Client) (method urlStr : string) (body : option Value)
  : option http.Request * option error :=
  if negb (HasSuffix (url.Path (BaseURL c)) "/")
  then (None, Some (fmt_Errorf "BaseURL must have a trailing slash, but %q does not"
                               [URL_String (BaseURL c)]))
  else
    match URL_Parse (BaseURL c) urlStr with
    | Err err => (None, Some err)
    | Ok u =>
        match encode_body body with
        | Err err => (None, Some err)
        | Ok buf =>
            match http_NewRequest method (URL_String u) buf with
            | Err err => (None, Some err)
            | Ok req =>
                let req :=
                  match body with
                  | Some _ => http.Header_Set "Content-Type" "application/json" req
                  | None => req
                  end in
                let req := http.Header_Set "Accept" mediaType req in
                let req :=
                  if nonempty (UserAgent c)
                  then http.Header_Set "User-Agent" (UserAgent c) req
                  else req in
                (Some req, None)
            end
        end
    end.

(** [c.NewUploadRequest(urlStr, reader, size, mediaType)], the reader
    being the file handle. *)
Definition NewUploadRequest (c : Client) (urlStr : string) (size : Z)
    (mediaType : string) : option http.Request * option error :=
  if negb (HasSuffix (url.Path (BaseURL c)) "/")
  then (None, Some (fmt_Errorf "base URL must have a trailing slash, but %q does not"
                               [URL_String (BaseURL c)]))
  else
    match URL_Parse (BaseURL c) urlStr with
    | Err err => (None, Some err)
    | Ok u =>
        match http_NewRequest "POST" (URL_String u) (Some http.FileBody) with
        | Err err => (None, Some err)
        | Ok req =>
            let req := http.set_ContentLength size req in
            let req := http.Header_Set "Content-Type" mediaType req in
            let req := http.Header_Set "User-Agent" (UserAgent c) req in
            (Some req, None)
        end
    end.

(** [parseResponse(r)].  [response.Response] is [r] itself, so the status
    tested after decoding is read through [response]. *)
Definition parseResponse (r : http.Response) : option Response * option error :=
  let response := mkResponse r "" "" false false false in
  let '(data, err) := ioutil_ReadAll (http.RespBody r) in
  let response :=
    match err, data with
    | None, Some data => (json_Unmarshal data response).1
    | _, _ => response
    end in
  let c := http.StatusCode (Response_ response) in
  if (200 <=? c) && (c <=? 299)
  then (Some response, None)
  else (Some response, Some (fmt_Errorf (Error response) [])).

(** The bytes the body reader of a request can deliver; for a file body,
    what reads on the handle still yield. *)
Definition payload (req : http.Request) (f : os.File) : string :=
  match http.ReqBody req with
  | None => ""
  | Some (http.BufferBody b) => b
  | Some http.FileBody => os.remaining f
  end.

(** The file handle once the transport has taken [n] bytes of the body:
    only a file body moves it. *)
Definition after_send (req : http.Request) (n : nat) (f : os.File) : os.File :=
  match http.ReqBody req with
  | Some http.FileBody =>
      os.set_offset (os.offset f + Nat.min n (String.length (os.remaining f))) f
  | _ => f
  end.

(** [c.Do(ctx, req)].  The deferred [r.Body.Close()] of [parseResponse]
    has no effect on the state modelled here. *)
Definition Do (c : Client) (ctx : context.Context) (req : option http.Request)
  : M (option Response * option error) :=
  match req with
  | None => panic nil_dereference
  | Some req =>
      let req := http.WithContext ctx req in
      f ← get_file;
      log (EvDo req (payload req f));;
      let x := http.Do (httpClient c) req (payload req f) in
      put_file (after_send req (http.consumed x) f);;
      match http.err x with
      | Some err =>
          if context.Done ctx
          then mret (None, context.Err ctx)
          else mret (None, Some err)
      | None =>
          match http.resp x with
          | None => panic nil_dereference
          | Some resp => mret (parseResponse resp)
          end
      end
  end.

(* ===================================================================== *)
(** ** charts.go *)
(* ===================================================================== *)

(** [c.String()] for a [ChartInfo]. *)
Definition ChartInfo_String (c : ChartInfo) : M string :=
  name ← deref (Name c);
  version ← deref (Version c);
  let s := Sprintf "%s-%s" [name; version] in
  org ← deref (Org c);
  if nonempty org then
    org ← deref (Org c);
    repo ← deref (Repo c);
    mret (Sprintf "%s/%s/%s" [org; repo; s])
  else
    repo ← deref (Repo c);
    if nonempty repo then
      repo ← deref (Repo c);
      mret (Sprintf "%s/%s" [repo; s])
    else mret s.

(** [detectContentType(file)]. *)
Definition detectContentType : M (string * option error) :=
  '(got, err) ← file_Read 512;
  let buffer := filled 512 got in
  match err with
  | Some err => mret ("application/octet-stream", Some err)
  | None =>
      file_Seek 0 0;;
      mret (http_DetectContentType buffer, None)
  end.

(** [s.uploadChartHelper(ctx, u, file)]. *)
Definition uploadChartHelper (s : ChartService) (ctx : context.Context)
    (u : string) : M (option Response * option error) :=
  st ← file_Stat;
  match st with
  | Err err => mret (None, errors_Wrap (Some err) "Unable to access file")
  | Ok stat =>
      if os.IsDir stat
      then mret (None, Some (errors_New "Chart to upload can't be a directory"))
      else
        '(mediaType, _) ← detectContentType;
        '(req, err) ← traced (EvNewRequest "POST" u)
                        (NewUploadRequest (client s) u (os.Size stat) mediaType);
        match err with
        | Some _ => mret (None, errors_Wrap err "Failed creating upload request")
        | None =>
            '(resp, err) ← Do (client s) ctx req;
            match err with
            | Some _ => mret (resp, errors_Wrap err "Failed to do upload request")
            | None => mret (resp, None)
            end
        end
  end.

(** [s.deleteChartHelper(ctx, u)]. *)
Definition deleteChartHelper (s : ChartService) (ctx : context.Context)
    (u : string) : M (option Response * option error) :=
  '(req, err) ← traced (EvNewRequest "DELETE" u)
                  (NewRequest (client s) "DELETE" u None);
  match err with
  | Some _ => mret (None, errors_Wrap err "Failed creating delete request")
  | None =>
      '(resp, err) ← Do (client s) ctx req;
      match err with
      | Some _ => mret (resp, errors_Wrap err "Failed to do delete request")
      | None => mret (resp, None)
      end
  end.

(** [s.UploadChart(ctx, c, file)]; [file] is the handle of the state. *)
Definition UploadChart (s : ChartService) (ctx : context.Context)
    (c : ChartInfo) : M (option Response * option error) :=
  let u := "api/charts" in
  org ← deref (Org c);
  if nonempty org then
    repo ← deref (Repo c);
    if String.eqb repo ""
    then mret (None, Some (errors_Errorf "Repo required if Org is provided" []))
    else
      org ← deref (Org c);
      repo ← deref (Repo c);
      let u := Sprintf "api/%s/%s/charts" [org; repo] in
      uploadChartHelper s ctx u
  else
    repo ← deref (Repo c);
    if nonempty repo then
      repo ← deref (Repo c);
      let u := Sprintf "api/%s/charts" [repo] in
      uploadChartHelper s ctx u
    else uploadChartHelper s ctx u.

(** [s.DeleteChart(ctx, c)]. *)
Definition DeleteChart (s : ChartService) (ctx : context.Context)
    (c : ChartInfo) : M (option Response * option error) :=
  name ← deref (Name c);
  version ← deref (Version c);
  let u := Sprintf "api/charts/%s/%s" [name; version] in
  org ← deref (Org c);
  if nonempty org then
    repo ← deref (Repo c);
    if String.eqb repo ""
    then mret (None, Some (errors_Errorf "Repo required if Org is provided" []))
    else
      org ← deref (Org c);
      repo ← deref (Repo c);
      name ← deref (Name c);
      version ← deref (Version c);
      let u := Sprintf "api/%s/%s/charts/%s/%s" [org; repo; name; version] in
      deleteChartHelper s ctx u
  else
    repo ← deref (Repo c);
    if nonempty repo then
      repo ← deref (Repo c);
      name ← deref (Name c);
      version ← deref (Version c);
      let u := Sprintf "api/%s/charts/%s/%s" [repo; name; version] in
      deleteChartHelper s ctx u
    else deleteChartHelper s ctx u.

End Package.

(* ===================================================================== *)
(** ** A small instance of the library interface *)
(* ===================================================================== *)

(** An instance of [GoLib] on which the definitions above run.  It covers
    plain [http://host/path] URLs, relative references made of plain
    segments, methods in capital letters, Go [bool]s as JSON values and
    JSON objects with one member; what it does not cover is an error. *)
Module Sample.

Definition dq : string := String "034" "".

Definition unsupported (what arg : string) : error :=
  sysError what arg "not covered by this instance".

Definition has_any (cs : list ascii) (s : string) : bool :=
  existsb (λ c, has_byte c s) cs.

(** The segments of a path, split at ['/']. *)
Fixpoint segments (s : string) : list string :=
  match s with
  | EmptyString => [""]
  | String c rest =>
      if Ascii.eqb c "/" then "" :: segments rest
      else match segments rest with
           | seg :: segs => String c seg :: segs
           | [] => [String c ""]
           end
  end.

(** A path up to and with its last ['/']. *)
Fixpoint dirname (s : string) : string :=
  match s with
  | EmptyString => ""
  | String c rest =>
      if has_byte "/" rest then String c (dirname rest)
      else if Ascii.eqb c "/" then "/" else ""
  end.

Definition parse_url (s : string) : res url.URL :=
  if negb (String.prefix "http://" s) || has_any ["?"; "#"; "%"; " "; "@"]%char s
  then Err (unsupported "parse" s)
  else
    let rest := String.substring 7 (String.length s - 7) s in
    match String.index 0 "/" rest with
    | None => Ok (url.mkURL "http" "" None rest "" "" false "" "")
    | Some i =>
        Ok (url.mkURL "http" "" None (String.substring 0 i rest)
              (String.substring i (String.length rest - i) rest) "" false "" "")
    end.

Definition resolve (u : url.URL) (ref : string) : res url.URL :=
  if String.eqb ref "" then Ok u
  else if String.prefix "/" ref
          || has_any [":"; "?"; "#"; "%"; " "]%char ref
          || bool_decide ("." ∈ segments ref)
          || bool_decide (".." ∈ segments ref)
          || negb (has_byte "/" (url.Path u))
  then Err (unsupported "parse" ref)
  else Ok (url.set_Path (dirname (url.Path u) +:+ ref) u).

Definition url_string (u : url.URL) : string :=
  url.Scheme u +:+ "://" +:+ url.Host u +:+ url.Path u.

Definition capital (c : ascii) : bool :=
  (65 <=? nat_of_ascii c)%nat && (nat_of_ascii c <=? 90)%nat.

Fixpoint all_capital (s : string) : bool :=
  match s with
  | EmptyString => true
  | String c rest => capital c && all_capital rest
  end.

Definition new_request (method urlStr : string) (body : option http.Body)
  : res http.Request :=
  let method := if String.eqb method "" then "GET" else method in
  if negb (all_capital method)
  then Err (unsupported "net/http: method" method)
  else
    match parse_url urlStr with
    | Err e => Err e
    | Ok u =>
        Ok (http.mkRequest method u ∅ body
              match body with
              | Some (http.BufferBody b) => Z.of_nat (String.length b)
              | _ => 0
              end
              context.Background)
    end.

(** A transport with no network behind it. *)
Definition unreachable : http.Client :=
  http.mkClient (λ _ _,
    http.mkExchange None (Some (sysError "dial tcp" "" "connection refused")) 0).

(** A transport that answers every request with the given status and body. *)
Definition answering (code : Z) (body : string) : http.Client :=
  http.mkClient (λ _ p,
    http.mkExchange (Some (http.mkResponse "" code ∅ (http.mkReadCloser body None)))
                    None (String.length p)).

(** The gzip signature, and nothing else. *)
Definition detect (data : string) : string :=
  if String.prefix (String "031" (String "139" (String "008" ""))) data
  then "application/x-gzip"
  else "application/octet-stream".

Definition encode (escapeHTML : bool) (v : bool) : res string :=
  Ok ((if v then "true" else "false") +:+ String "010" "").

(** The text between [pre] and [post], when it has no quote or backslash. *)
Definition between (pre post s : string) : option string :=
  let n := String.length s in
  let a := String.length pre in
  let b := String.length post in
  if String.prefix pre s && HasSuffix s post && (a + b <=? n)%nat
  then
    let mid := String.substring a (n - a - b) s in
    if has_any ["034"; "092"]%char mid then None else Some mid
  else None.

Definition unmarshal (data : string) (r : Response) : Response * option error :=
  let str key := between ("{" +:+ dq +:+ key +:+ dq +:+ ":" +:+ dq) (dq +:+ "}") data in
  let flag key := String.eqb data ("{" +:+ dq +:+ key +:+ dq +:+ ":true}") in
  match str "error", str "message" with
  | Some e, _ =>
      (mkResponse (Response_ r) (Message r) e (Saved r) (Deleted r) (Healthy r), None)
  | _, Some m =>
      (mkResponse (Response_ r) m (Error r) (Saved r) (Deleted r) (Healthy r), None)
  | _, _ =>
      if flag "saved"
      then (mkResponse (Response_ r) (Message r) (Error r) true (Deleted r) (Healthy r), None)
      else if flag "deleted"
      then (mkResponse (Response_ r) (Message r) (Error r) (Saved r) true (Healthy r), None)
      else if flag "healthy"
      then (mkResponse (Response_ r) (Message r) (Error r) (Saved r) (Deleted r) true, None)
      else (r, Some (unsupported "json" data))
  end.

Definition other_format (format : string) (a : list string) : string :=
  "%!(UNSUPPORTED)".

Definition lib : GoLib := {|
  Value := bool;
  url_Parse := parse_url;
  URL_Parse := resolve;
  URL_String := url_string;
  http_NewRequest := new_request;
  http_NewRequest_Header := ltac:(
    unfold new_request; intros m u b r;
    repeat case_match; intros [= <-]; reflexivity);
  http_NewRequest_Body := ltac:(
    unfold new_request; intros m u b r;
    repeat case_match; intros [= <-]; reflexivity);
  http_DefaultClient := unreachable;
  http_DetectContentType := detect;
  json_Encode := encode;
  json_Unmarshal := unmarshal;
  fmt_other := other_format
|}.

End Sample.

(* ===================================================================== *)
(** ** The specification's words, and inputs for the examples *)
(* ===================================================================== *)

(** The upload path as the specification words it: [api/{org}/{repo}/charts]
    when org is set, [api/{repo}/charts] when only repo is set, [api/charts]
    otherwise. *)
Definition spec_upload_path (org repo : string) : string :=
  if decide (org ≠ "") then "api/" +:+ org +:+ "/" +:+ repo +:+ "/charts"
  else if decide (repo ≠ "") then "api/" +:+ repo +:+ "/charts"
  else "api/charts".

(** The delete path as the specification words it: the same three shapes
    with [/{name}/{version}] appended. *)
Definition spec_delete_path (org repo name version : string) : string :=
  spec_upload_path org repo +:+ "/" +:+ name +:+ "/" +:+ version.

(** The tail of [uploadChartHelper] once the content type is known: build
    the upload request, send it, wrap the errors. *)
Definition send_upload `{lib : GoLib} (s : ChartService) (ctx : context.Context)
    (u : string) (size : Z) (mediaType : string)
  : M (option Response * option error) :=
  '(req, err) ← traced (EvNewRequest "POST" u)
                  (NewUploadRequest (client s) u size mediaType);
  match err with
  | Some _ => mret (None, errors_Wrap err "Failed creating upload request")
  | None =>
      '(resp, err) ← Do (client s) ctx req;
      match err with
      | Some _ => mret (resp, errors_Wrap err "Failed to do upload request")
      | None => mret (resp, None)
      end
  end.

(** The envelope of a response: the zero envelope around [r], decoded from
    the body when the body could be read to its end. *)
Definition envelope `{lib : GoLib} (r : http.Response) : Response :=
  match http.failure (http.RespBody r) with
  | None => (json_Unmarshal (http.bytes (http.RespBody r))
                            (mkResponse r "" "" false false false)).1
  | Some _ => mkResponse r "" "" false false false
  end.

(** The status code is in 200..299. *)
Definition success (code : Z) : Prop := 200 ≤ code ≤ 299.

(** The error of the directory check. *)
Definition directory_error : error :=
  fundamental "Chart to upload can't be a directory".

(** The error of the org/repo check. *)
Definition repo_required : error :=
  fundamental "Repo required if Org is provided".

Module Inputs.

(** A packaged chart: 22 bytes that start with the gzip signature. *)
Definition archive : string :=
  String "031" (String "139" (String "008" "rest of the archive")).

Definition chart_file (off : nat) : os.File :=
  os.mkFile "demo-1.0.0.tgz" false archive off None None None.

(** The same archive behind a handle that cannot seek, a pipe. *)
Definition chart_pipe : os.File :=
  os.mkFile "/dev/stdin" false archive 0 None None
            (Some (sysError "seek" "/dev/stdin" "illegal seek")).

Definition empty_file : os.File :=
  os.mkFile "empty.tgz" false "" 0 None None None.

Definition directory : os.File :=
  os.mkFile "charts" true "" 0 None None None.

Definition base : url.URL :=
  url.mkURL "http" "" None "localhost:8080" "/" "" false "" "".

(** A client as [NewClient] builds it, over the transport [t]. *)
Definition museum (t : http.Client) : Client := mkClient base userAgent t.

(** The same client after [c.UserAgent] was set to the empty string. *)
Definition anonymous (t : http.Client) : Client := mkClient base "" t.

Definition chart (name version org repo : string) : ChartInfo :=
  mkChartInfo (Some name) (Some version) (Some org) (Some repo).

(** The body [{"error":"100%"}]. *)
Definition error_body : string :=
  "{" +:+ Sample.dq +:+ "error" +:+ Sample.dq +:+ ":" +:+ Sample.dq +:+ "100%"
  +:+ Sample.dq +:+ "}".

Definition server_error : http.Response :=
  http.mkResponse "500 Internal Server Error" 500 ∅ (http.mkReadCloser error_body None).

Definition start (f : os.File) : World := mkWorld f [].

(** The chart service of a client over the transport [t]. *)
Definition service (t : http.Client) : ChartService := mkChartService (museum t).

(** The body [{"saved":true}]. *)
Definition saved : string :=
  "{" +:+ Sample.dq +:+ "saved" +:+ Sample.dq +:+ ":true}".

(** A request as [http.NewRequest] returns it, before any header is set. *)
Definition bare_request : http.Request :=
  http.mkRequest "DELETE" base ∅ None 0 context.Background.

Definition canceled : context.Context :=
  context.mkContext true (Some context_Canceled).

End Inputs.

(* ===================================================================== *)
(** ** examples/curator/main.go: the command-line front end *)
(* ===================================================================== *)

(** What the commands take from [*cli.Context] of github.com/urfave/cli. *)
Module cli.
Record Context : Type := mkContext {
  globalFlags : gmap string string;
  args : list string
}.

(** [c.GlobalString(name)]: the empty string for a flag that is not set. *)
Definition GlobalString (c : Context) (name : string) : string :=
  default "" (globalFlags c !! name).

(** [c.Args()], [args.First()] and [args.Get(n)]: the empty string past
    the end. *)
Definition Args (c : Context) : list string := args c.
Definition Get (a : list string) (n : nat) : string := default "" (a !! n).
Definition First (a : list string) : string := Get a 0.
End cli.

(** A loaded chart of k8s.io/helm: the metadata pointer, and in it the two
    fields the command reads. *)
Module chartutil.
Record Metadata : Type := mkMetadata {
  Name : string;
  Version : string
}.

Record Chart : Type := mkChart {
  Metadata_ : option Metadata
}.
End chartutil.

(** The collaborators of the command: helm's chart utilities and the file
    system, each by what it returns. *)
Class Platform : Type := {
  (** [chartutil.IsChartDir(path)] *)
  chartutil_IsChartDir : string → bool * option error;
  (** [ioutil.TempDir(dir, prefix)] *)
  ioutil_TempDir : string → string → res string;
  (** [chartutil.LoadDir(path)] *)
  chartutil_LoadDir : string → res chartutil.Chart;
  (** [chartutil.Save(chart, dir)]: the path of the archive *)
  chartutil_Save : chartutil.Chart → string → res string;
  (** [os.Open(path)] *)
  os_Open : string → res os.File
}.

(** The calls of a command, oldest first; [Library] is a call of the
    client library with the calls it made. *)
Inductive Call : Type :=
  | Printf (text : string)
  | ShowSubcommandHelp
  | IsChartDir (path : string)
  | TempDir (dir pre : string)
  | LoadDir (path : string)
  | Save (dir : string)
  | Open (path : string)
  | RemoveAll (path : string)
  | Library (events : list Event).

(** Computations of the command: the calls so far are the state. *)
Definition P (A : Type) : Type := list Call → Result A * list Call.

#[global] Instance P_ret : MRet P := λ A a t, (Val a, t).
#[global] Instance P_bind : MBind P := λ A B k m t,
  match m t with
  | (Val a, t') => k a t'
  | (Panic msg, t') => (Panic msg, t')
  end.

Definition emit (c : Call) : P unit := λ t, (Val (), (t ++ [c])%list).

(** A call of a collaborator, recorded with its result. *)
Definition called {A} (c : Call) (a : A) : P A := emit c;; mret a.

Definition raise {A} (msg : string) : P A := λ t, (Panic msg, t).

(** [defer d] before [body]: [d] runs when [body] returns or panics. *)
Definition defer {A} (d : P unit) (body : P A) : P A := λ t,
  let '(r, t') := body t in (r, (d t').2).

(** A call of the library on the file handle [f]. *)
Definition library {A} (f : os.File) (m : M A) : P A := λ t,
  let '(r, w) := m (mkWorld f []) in (r, (t ++ [Library (trace w)])%list).

(** The handle of the state while no file is open: every call on it fails. *)
Definition no_file : os.File :=
  os.mkFile "" false "" 0 (Some (errorString "invalid argument"))
            (Some (errorString "invalid argument"))
            (Some (errorString "invalid argument")).

(** The line feed of the formats. *)
Definition nl : string := String "010" "".

Module curator.

Record Config : Type := mkConfig {
  Server : string;
  Org : string;
  Repo : string;
  Client_ : option Client
}.

(** The assignment [config.Client = c]. *)
Definition set_Client (c : option Client) (config : Config) : Config :=
  mkConfig (Server config) (Org config) (Repo config) c.

Section Commands.
Context `{lib : GoLib} `{sys : Platform}.

(** [errors.Wrapf(err, format, a...)] of pkg/errors: [nil] stays [nil]. *)
Definition errors_Wrapf (err : option error) (format : string) (a : list string)
  : option error :=
  match err with
  | None => None
  | Some e => Some (withMessage e (Sprintf format a))
  end.

(** [fmt.Printf(format, a...)]. *)
Definition fmt_Printf (format : string) (a : list string) : P unit :=
  emit (Printf (Sprintf format a)).

(** The operand [ci] under [%s]: [fmt] calls its [String] method. *)
Definition formatted (ci : ChartInfo) : string :=
  match ChartInfo_String ci (mkWorld no_file []) with
  | (Val str, _) => str
  | (Panic msg, _) => fmt_other "%s" [msg]
  end.

(** [*config] for a [*Config]. *)
Definition the_config (config : option Config) : P Config :=
  match config with
  | Some c => mret c
  | None => raise nil_dereference
  end.

(** [initConfig(c)]. *)
Definition initConfig (c : cli.Context) : option Config * option error :=
  let config :=
    mkConfig (cli.GlobalString c "server") (cli.GlobalString c "org")
             (cli.GlobalString c "repo") None in
  if nonempty (Org config) && String.eqb (Repo config) ""
  then (None, Some (errors_Errorf "Repo required if Org is set" []))
  else
    let '(cl, err) := NewClient (Server config) None in
    match err with
    | Some _ =>
        (None, errors_Wrapf err "Could not create ChartMuseum client (server: %q)"
                            [Server config])
    | None => (Some (set_Client cl config), None)
    end.

(** [packageAndUpload(ctx, config, chart)]. *)
Definition packageAndUpload (ctx : context.Context) (config : option Config)
    (chart : string) : P (option Response * option error) :=
  tmp ← called (TempDir "" "curator-") (ioutil_TempDir "" "curator-");
  match tmp with
  | Err err =>
      mret (None, errors_Wrapf (Some err) "Error while preparing temp Dir" [])
  | Ok tmp =>
      defer (emit (RemoveAll tmp)) (
        c ← called (LoadDir chart) (chartutil_LoadDir chart);
        match c with
        | Err err =>
            mret (None, errors_Wrapf (Some err)
                          "Error while loading Chart directory: %q" [chart])
        | Ok c =>
            chartPackage ← called (Save tmp) (chartutil_Save c tmp);
            match chartPackage with
            | Err err =>
                mret (None, errors_Wrapf (Some err)
                              "Error while packaging Chart: %q" [chart])
            | Ok chartPackage =>
                f ← called (Open chartPackage) (os_Open chartPackage);
                match f with
                | Err err =>
                    mret (None, errors_Wrapf (Some err)
                                  "Error while opening generated Chart package: %q"
                                  [chartPackage])
                | Ok f =>
                    metadata ← match chartutil.Metadata_ c with
                               | Some m => mret m
                               | None => raise nil_dereference
                               end;
                    config ← the_config config;
                    let ci := mkChartInfo (Some (chartutil.Name metadata))
                                          (Some (chartutil.Version metadata))
                                          (Some (Org config)) (Some (Repo config)) in
                    match Client_ config with
                    | None => raise nil_dereference
                    | Some cl => library f (UploadChart (mkChartService cl) ctx ci)
                    end
                end
            end
        end)
  end.

(** [*response] for a [*Response]. *)
Definition the_response (response : option Response) : P Response :=
  match response with
  | Some r => mret r
  | None => raise nil_dereference
  end.

(** [pushCommand(c)]. *)
Definition pushCommand (c : cli.Context) : P (option error) :=
  let '(config, err) := initConfig c in
  match err with
  | Some e =>
      fmt_Printf ("%s" +:+ nl) [Error_text e];;
      emit ShowSubcommandHelp;;
      mret err
  | None =>
      let chartPath := cli.First (cli.Args c) in
      '(valid, err) ← called (IsChartDir chartPath) (chartutil_IsChartDir chartPath);
      if negb valid
      then mret (errors_Wrapf err "Error validating chart path: %q" [chartPath])
      else
        let ctx := context.Background in
        '(response, err) ← packageAndUpload ctx config chartPath;
        match err with
        | Some e =>
            fmt_Printf ("Error while processing %q: %s" +:+ nl)
                       [chartPath; Error_text e]
        | None =>
            response ← the_response response;
            if Saved response
            then
              config ← the_config config;
              fmt_Printf ("Succesfully Uploaded %q to %q" +:+ nl)
                         [chartPath; Server config]
            else
              fmt_Printf ("Unexpected ChartMuseum response (Message = %q)" +:+ nl)
                         [Message response]
        end;;
        mret None
  end.

(** [deleteCommand(c)]. *)
Definition deleteCommand (c : cli.Context) : P (option error) :=
  let '(config, err) := initConfig c in
  match err with
  | Some e =>
      fmt_Printf ("%s" +:+ nl) [Error_text e];;
      emit ShowSubcommandHelp;;
      mret err
  | None =>
      let chartName := cli.First (cli.Args c) in
      let chartVersion := cli.Get (cli.Args c) 1 in
      config ← the_config config;
      let ci := mkChartInfo (Some chartName) (Some chartVersion)
                            (Some (Org config)) (Some (Repo config)) in
      let ctx := context.Background in
      '(response, err) ← match Client_ config with
                         | None => raise nil_dereference
                         | Some cl =>
                             library no_file (DeleteChart (mkChartService cl) ctx ci)
                         end;
      match err with
      | Some e =>
          fmt_Printf ("Error while deleting %s: %s" +:+ nl)
                     [formatted ci; Error_text e]
      | None =>
          response ← the_response response;
          if Deleted response
          then fmt_Printf ("Succesfully deleted %s from %q" +:+ nl)
                          [formatted ci; Server config]
          else fmt_Printf ("Unexpected ChartMuseum response (Message = %q)" +:+ nl)
                          [Message response]
      end;;
      mret None
  end.

End Commands.
End curator.

(** A transport that keeps the contract of [Do] of [*http.Client]: it
    returns a response or an error. *)
Definition well_behaved (t : http.Client) : Prop :=
  ∀ req p, is_Some (http.err (http.Do t req p))
           ∨ is_Some (http.resp (http.Do t req p)).

(** The calls on the file handle. *)
Definition touches_file (e : Event) : bool :=
  match e with
  | EvStat | EvRead _ _ | EvSeek _ _ => true
  | EvNewRequest _ _ | EvDo _ _ => false
  end.

(** A Go result pair with exactly one of the two set. *)
Definition exactly_one {A} (r : option A * option error) : Prop :=
  (is_Some r.1 ∧ r.2 = None) ∨ (r.1 = None ∧ is_Some r.2).

(** The error [parseResponse] returns for a status outside 200..299. *)
Definition status_error `{lib : GoLib} (r : http.Response) : option error :=
  if decide (success (http.StatusCode (Response_ (envelope r))))
  then None
  else Some (fmt_Errorf (Error (envelope r)) []).

(** Collaborators for the examples: one chart directory, [demo]. *)
Module SamplePlatform.

Definition demo : chartutil.Chart :=
  chartutil.mkChart (Some (chartutil.mkMetadata "demo" "1.0.0")).

Definition is_chart_dir (path : string) : bool * option error :=
  if String.eqb path "demo" then (true, None)
  else (false, Some (errorString "no Chart.yaml exists in directory")).

Definition load_dir (path : string) : res chartutil.Chart :=
  if String.eqb path "demo" then Ok demo
  else Err (errorString "no Chart.yaml exists in directory").

Definition sys : Platform := {|
  chartutil_IsChartDir := is_chart_dir;
  ioutil_TempDir := λ _ pre, Ok ("/tmp/" +:+ pre +:+ "1");
  chartutil_LoadDir := load_dir;
  chartutil_Save := λ _ dir, Ok (dir +:+ "/demo-1.0.0.tgz");
  os_Open := λ _, Ok (Inputs.chart_file 0)
|}.

(** The same with no room for a temporary directory. *)
Definition full_disk : Platform := {|
  chartutil_IsChartDir := is_chart_dir;
  ioutil_TempDir := λ _ _, Err (sysError "mkdir" "/tmp" "no space left on device");
  chartutil_LoadDir := load_dir;
  chartutil_Save := λ _ dir, Ok (dir +:+ "/demo-1.0.0.tgz");
  os_Open := λ _, Ok (Inputs.chart_file 0)
|}.

(** Command lines: the global flags and the arguments. *)
Definition command_line (server org repo : string) (args : list string)
  : cli.Context :=
  cli.mkContext (<["server" := server]> (<["org" := org]> (<["repo" := repo]> ∅)))
                args.

End SamplePlatform.

(** An instance of the library interface for base URLs with an escaped
    slash.  It covers [http://host/path] where the path is made of bytes
    that need no escape and of the escape [%2F], and relative references
    made of plain segments; for the rest it is [Sample.lib].  As in
    [net/url], a parsed URL keeps the raw path next to the decoded one when
    the two differ, and resolution works on the escaped path. *)
Module Escapes.

(** [unescape(s, encodePath)] on such paths. *)
Fixpoint unescape (s : string) : string :=
  match s with
  | String "%" (String "2" (String "F" rest)) => String "/" (unescape rest)
  | String c rest => String c (unescape rest)
  | EmptyString => ""
  end.

(** [u.setPath(p)]: the decoded path, and the raw one when it is not the
    default encoding of the decoded path. *)
Definition setPath (p : string) (u : url.URL) : url.URL :=
  url.mkURL (url.Scheme u) (url.Opaque u) (url.User u) (url.Host u)
            (unescape p) (if String.eqb p (unescape p) then "" else p)
            (url.ForceQuery u) (url.RawQuery u) (url.Fragment u).

(** [u.EscapedPath()]: [RawPath] when it is an encoding of [Path], else the
    default encoding of [Path]. *)
Definition EscapedPath (u : url.URL) : string :=
  if nonempty (url.RawPath u) && String.eqb (unescape (url.RawPath u)) (url.Path u)
  then url.RawPath u
  else url.Path u.

Definition parse_url (s : string) : res url.URL :=
  if negb (String.prefix "http://" s)
     || Sample.has_any ["?"; "#"; " "; "@"]%char s
  then Err (Sample.unsupported "parse" s)
  else
    let rest := String.substring 7 (String.length s - 7) s in
    match String.index 0 "/" rest with
    | None => Ok (url.mkURL "http" "" None rest "" "" false "" "")
    | Some i =>
        Ok (setPath (String.substring i (String.length rest - i) rest)
              (url.mkURL "http" "" None (String.substring 0 i rest)
                         "" "" false "" ""))
    end.

(** [u.Parse(ref)] for a plain relative reference: [ResolveReference]
    joins it to the directory of the escaped path of [u]. *)
Definition resolve (u : url.URL) (ref : string) : res url.URL :=
  if String.eqb ref "" then Ok u
  else if String.prefix "/" ref
          || Sample.has_any [":"; "?"; "#"; "%"; " "]%char ref
          || bool_decide ("." ∈ Sample.segments ref)
          || bool_decide (".." ∈ Sample.segments ref)
          || negb (has_byte "/" (EscapedPath u))
  then Err (Sample.unsupported "parse" ref)
  else Ok (setPath (Sample.dirname (EscapedPath u) +:+ ref) u).

Definition url_string (u : url.URL) : string :=
  url.Scheme u +:+ "://" +:+ url.Host u +:+ EscapedPath u.

Definition new_request (method urlStr : string) (body : option http.Body)
  : res http.Request :=
  let method := if String.eqb method "" then "GET" else method in
  if negb (Sample.all_capital method)
  then Err (Sample.unsupported "net/http: method" method)
  else
    match parse_url urlStr with
    | Err e => Err e
    | Ok u =>
        Ok (http.mkRequest method u ∅ body
              match body with
              | Some (http.BufferBody b) => Z.of_nat (String.length b)
              | _ => 0
              end
              context.Background)
    end.

Definition lib : GoLib := {|
  Value := bool;
  url_Parse := parse_url;
  URL_Parse := resolve;
  URL_String := url_string;
  http_NewRequest := new_request;
  http_NewRequest_Header := ltac:(
    unfold new_request; intros m u b r;
    repeat case_match; intros [= <-]; reflexivity);
  http_NewRequest_Body := ltac:(
    unfold new_request; intros m u b r;
    repeat case_match; intros [= <-]; reflexivity);
  http_DefaultClient := Sample.unreachable;
  http_DetectContentType := Sample.detect;
  json_Encode := Sample.encode;
  json_Unmarshal := Sample.unmarshal;
  fmt_other := Sample.other_format
|}.

(** The base URL [http://h/a%2Fb] as [url.Parse] returns it, and the same
    with the slash at the end. *)
Definition escaped : url.URL :=
  url.mkURL "http" "" None "h" "/a/b" "/a%2Fb" false "" "".
Definition escaped_slash : url.URL :=
  url.mkURL "http" "" None "h" "/a/b/" "/a%2Fb/" false "" "".

(** What [api/charts] resolves to against a base with path [/a/b/]: through
    the default encoding of the path, and through the raw path [/a%2Fb/]. *)
Definition resolved_plain : url.URL :=
  url.mkURL "http" "" None "h" "/a/b/api/charts" "" false "" "".
Definition resolved_raw : url.URL :=
  url.mkURL "http" "" None "h" "/a/b/api/charts" "/a%2Fb/api/charts" false "" "".

End Escapes.

(** More inputs for the examples. *)
Module MoreInputs.

(** The body [{"deleted":true}]. *)
Definition deleted : string :=
  "{" +:+ Sample.dq +:+ "deleted" +:+ Sample.dq +:+ ":true}".

(** The body [{"error":"disk full"}]. *)
Definition disk_full : string :=
  "{" +:+ Sample.dq +:+ "error" +:+ Sample.dq +:+ ":" +:+ Sample.dq
  +:+ "disk full" +:+ Sample.dq +:+ "}".

(** A client whose base URL was set to one without the final slash. *)
Definition slashless (t : http.Client) : Client :=
  mkClient (url.mkURL "http" "" None "localhost:8080" "/museum" "" false "" "")
           userAgent t.

(** A transport that breaks the contract: neither response nor error. *)
Definition silent : http.Client :=
  http.mkClient (λ _ _, http.mkExchange None None 0).

End MoreInputs.

(* ===================================================================== *)
(** ** Proof plumbing *)
(* ===================================================================== *)

(** Runs the binds, returns, panics and dereferences of a computation. *)
Ltac run := cbv [mbind mret M_bind M_ret panic deref].

(** The same, with the traced calls on the file handle. *)
Ltac run_io :=
  cbv [mbind mret M_bind M_ret panic traced log get_file put_file
       file_Stat file_Read file_Seek];
  cbn [file trace fst snd].

(** Runs the plumbing of a command. *)
Ltac run_p :=
  cbv [mbind mret P_bind P_ret emit called raise defer library
       curator.the_config curator.the_response curator.fmt_Printf].

(* ===================================================================== *)
(** ** Strings and formatting *)
(* ===================================================================== *)

Lemma append_cons (x : ascii) (a b : string) :
  String x a +:+ b = String x (a +:+ b).
Proof. reflexivity. Qed.

Lemma append_assoc (a b c : string) : (a +:+ b) +:+ c = a +:+ (b +:+ c).
Proof.
  induction a as [|x a IH]; [reflexivity|].
  by rewrite !append_cons, IH.
Qed.

Lemma append_empty_r (a : string) : a +:+ "" = a.
Proof.
  induction a as [|x a IH]; [reflexivity|].
  by rewrite append_cons, IH.
Qed.

Lemma length_append (a b : string) :
  String.length (a +:+ b) = (String.length a + String.length b)%nat.
Proof.
  induction a as [|x a IH]; [reflexivity|].
  rewrite append_cons. cbn. by rewrite IH.
Qed.

Lemma substring_all (s : string) : String.substring 0 (String.length s) s = s.
Proof. induction s as [|x s IH]; [reflexivity|]. cbn. by rewrite IH. Qed.

Lemma substring_length_le (s : string) (i n : nat) :
  (String.length (String.substring i n s) ≤ n)%nat.
Proof.
  revert i n. induction s as [|x s IH]; intros [|i] [|n]; cbn; try lia.
  - specialize (IH 0%nat n). lia.
  - apply IH.
  - apply IH.
Qed.

Lemma nonempty_true (s : string) : nonempty s = true ↔ s ≠ "".
Proof.
  unfold nonempty. destruct (String.eqb_spec s ""); cbn; split; congruence.
Qed.

Lemma nonempty_false (s : string) : nonempty s = false ↔ s = "".
Proof.
  unfold nonempty. destruct (String.eqb_spec s ""); cbn; split; congruence.
Qed.

(** [HasSuffix s "/"] looks at the last byte. *)
Lemma HasSuffix_slash_append (p : string) : HasSuffix (p +:+ "/") "/" = true.
Proof.
  unfold HasSuffix. rewrite length_append. cbn [String.length].
  replace (1 <=? String.length p + 1)%nat with true
    by (symmetry; apply Nat.leb_le; lia).
  replace (String.length p + 1 - 1)%nat with (String.length p) by lia.
  cbn. apply String.eqb_eq.
  induction p as [|x p IH]; [reflexivity|].
  rewrite append_cons. cbn. exact IH.
Qed.

(** A format without ['%'] prints as itself. *)
Lemma doPrintf_plain (format : string) :
  has_byte "%" format = false → doPrintf format [] = Some format.
Proof.
  induction format as [|c rest IH]; [reflexivity|].
  cbn [has_byte]. intros [Hc Hrest]%orb_false_elim.
  specialize (IH Hrest).
  assert (c ≠ "%"%char) as Hne by (intros ->; discriminate).
  transitivity (String c <$> doPrintf rest []).
  - destruct c as [[] [] [] [] [] [] [] []]; try reflexivity.
    by destruct Hne.
  - by rewrite IH.
Qed.

Example doPrintf_path :
  doPrintf "api/%s/%s/charts" ["acme"; "stable"] = Some "api/acme/stable/charts".
Proof. reflexivity. Qed.

Example doPrintf_noverb : doPrintf "100%" [] = Some "100%!(NOVERB)".
Proof. reflexivity. Qed.

Example doPrintf_missing : doPrintf "50%d" [] = Some "50%!d(MISSING)".
Proof. reflexivity. Qed.

Example doPrintf_percent : doPrintf "100%% full" [] = Some "100% full".
Proof. reflexivity. Qed.

Example doPrintf_extra : doPrintf "chart" ["demo"] = Some "chart%!(EXTRA string=demo)".
Proof. reflexivity. Qed.

Example HasSuffix_root : HasSuffix "/" "/" = true ∧ HasSuffix "" "/" = false
                         ∧ HasSuffix "/museum" "/" = false.
Proof. by vm_compute. Qed.

(* ===================================================================== *)
(** ** The chart operations: validation, paths, pointers *)
(* ===================================================================== *)

Section Charts.
Context `{lib : GoLib}.
Implicit Types (s : ChartService) (ctx : context.Context) (w : World).

Lemma Sprintf_upload_repo (repo : string) :
  Sprintf "api/%s/charts" [repo] = "api/" +:+ repo +:+ "/charts".
Proof. reflexivity. Qed.

Lemma Sprintf_upload_org (org repo : string) :
  Sprintf "api/%s/%s/charts" [org; repo]
  = "api/" +:+ org +:+ "/" +:+ repo +:+ "/charts".
Proof. reflexivity. Qed.

Lemma Sprintf_delete (name version : string) :
  Sprintf "api/charts/%s/%s" [name; version]
  = "api/charts/" +:+ name +:+ "/" +:+ version.
Proof. unfold Sprintf. cbn. by rewrite append_empty_r. Qed.

Lemma Sprintf_delete_repo (repo name version : string) :
  Sprintf "api/%s/charts/%s/%s" [repo; name; version]
  = "api/" +:+ repo +:+ "/charts/" +:+ name +:+ "/" +:+ version.
Proof. unfold Sprintf. cbn. by rewrite append_empty_r. Qed.

Lemma Sprintf_delete_org (org repo name version : string) :
  Sprintf "api/%s/%s/charts/%s/%s" [org; repo; name; version]
  = "api/" +:+ org +:+ "/" +:+ repo +:+ "/charts/" +:+ name +:+ "/" +:+ version.
Proof. unfold Sprintf. cbn. by rewrite append_empty_r. Qed.

Lemma errors_Errorf_repo_required :
  errors_Errorf "Repo required if Org is provided" [] = repo_required.
Proof. reflexivity. Qed.

(** [UploadChart] on a [ChartInfo] whose Org and Repo point to strings. *)
Lemma UploadChart_defined s ctx (name version : option string) (org repo : string) w :
  UploadChart s ctx (mkChartInfo name version (Some org) (Some repo)) w =
    if nonempty org then
      if String.eqb repo "" then (Val (None, Some repo_required), w)
      else uploadChartHelper s ctx ("api/" +:+ org +:+ "/" +:+ repo +:+ "/charts") w
    else if nonempty repo
      then uploadChartHelper s ctx ("api/" +:+ repo +:+ "/charts") w
      else uploadChartHelper s ctx "api/charts" w.
Proof.
  unfold UploadChart. run. cbn [Org Repo].
  rewrite Sprintf_upload_org, Sprintf_upload_repo.
  destruct (nonempty org); cbn beta iota.
  - destruct (String.eqb repo ""); reflexivity.
  - destruct (nonempty repo); reflexivity.
Qed.

(** [DeleteChart] on a [ChartInfo] whose four fields point to strings. *)
Lemma DeleteChart_defined s ctx (name version org repo : string) w :
  DeleteChart s ctx (mkChartInfo (Some name) (Some version) (Some org) (Some repo)) w =
    if nonempty org then
      if String.eqb repo "" then (Val (None, Some repo_required), w)
      else deleteChartHelper s ctx
             ("api/" +:+ org +:+ "/" +:+ repo +:+ "/charts/" +:+ name +:+ "/" +:+ version) w
    else if nonempty repo
      then deleteChartHelper s ctx
             ("api/" +:+ repo +:+ "/charts/" +:+ name +:+ "/" +:+ version) w
      else deleteChartHelper s ctx ("api/charts/" +:+ name +:+ "/" +:+ version) w.
Proof.
  unfold DeleteChart. run. cbn [Name Version Org Repo].
  rewrite Sprintf_delete_org, Sprintf_delete_repo, Sprintf_delete.
  destruct (nonempty org); cbn beta iota.
  - destruct (String.eqb repo ""); reflexivity.
  - destruct (nonempty repo); reflexivity.
Qed.

(** C2.  A [ChartInfo] with org set and repo empty: [UploadChart] (whatever
    name and version are, [nil] included) and [DeleteChart] (for all name
    and version strings) return the validation error and leave the state as
    it was: the trace gains no call, so no request is built, nothing is
    sent, and the file is not touched. *)
Theorem C2_org_without_repo_is_rejected s ctx (org : string) w :
  org ≠ "" →
  (∀ name version : option string,
     UploadChart s ctx (mkChartInfo name version (Some org) (Some "")) w
     = (Val (None, Some repo_required), w))
  ∧ (∀ name version : string,
     DeleteChart s ctx (mkChartInfo (Some name) (Some version) (Some org) (Some "")) w
     = (Val (None, Some repo_required), w))
  ∧ Error_text repo_required = "Repo required if Org is provided".
Proof.
  intros Horg%nonempty_true. split_and!.
  - intros name version. by rewrite UploadChart_defined, Horg.
  - intros name version. by rewrite DeleteChart_defined, Horg.
  - reflexivity.
Qed.

(** C3.  For a valid [ChartInfo] (four strings, repo set when org is), the
    path handed to the request helpers is the one the specification words:
    [api/{org}/{repo}/charts], [api/{repo}/charts] or [api/charts] for an
    upload, and the same with [/{name}/{version}] appended for a delete. *)
Theorem C3_request_paths s ctx (name version org repo : string) w :
  (org ≠ "" → repo ≠ "") →
  UploadChart s ctx (mkChartInfo (Some name) (Some version) (Some org) (Some repo)) w
  = uploadChartHelper s ctx (spec_upload_path org repo) w
  ∧ DeleteChart s ctx (mkChartInfo (Some name) (Some version) (Some org) (Some repo)) w
  = deleteChartHelper s ctx (spec_delete_path org repo name version) w.
Proof.
  intros Hvalid.
  rewrite UploadChart_defined, DeleteChart_defined.
  unfold spec_delete_path, spec_upload_path.
  destruct (decide (org ≠ "")) as [Horg|Horg].
  - pose proof (Hvalid Horg) as Hrepo.
    apply nonempty_true in Horg as ->.
    apply String.eqb_neq in Hrepo as ->.
    by rewrite !append_assoc.
  - apply dec_stable in Horg. apply nonempty_false in Horg as ->.
    destruct (decide (repo ≠ "")) as [Hrepo|Hrepo].
    + apply nonempty_true in Hrepo as ->. by rewrite !append_assoc.
    + apply dec_stable in Hrepo. by apply nonempty_false in Hrepo as ->.
Qed.

(** C9.  The operations dereference the pointer fields of [ChartInfo]
    whatever their values: [UploadChart] panics when Org or Repo is [nil]
    (and never looks at Name and Version), [DeleteChart] and
    [ChartInfo.String] panic when any of the four is [nil], each before any
    effect.  With four pointers to strings [String] returns, and an org and
    a repo that point to the empty string select the unscoped paths: that is
    what an unset optional field is. *)
Theorem C9_nil_fields_panic s ctx w :
  (∀ name version repo,
     UploadChart s ctx (mkChartInfo name version None repo) w
     = (Panic nil_dereference, w))
  ∧ (∀ name version org,
     UploadChart s ctx (mkChartInfo name version (Some org) None) w
     = (Panic nil_dereference, w))
  ∧ (∀ name version name' version' org repo,
     UploadChart s ctx (mkChartInfo name version org repo) w
     = UploadChart s ctx (mkChartInfo name' version' org repo) w)
  ∧ (∀ name version org repo,
     name = None ∨ version = None ∨ org = None ∨ repo = None →
     DeleteChart s ctx (mkChartInfo name version org repo) w
     = (Panic nil_dereference, w))
  ∧ (∀ name version org repo,
     name = None ∨ version = None ∨ org = None ∨ repo = None →
     ChartInfo_String (mkChartInfo name version org repo) w
     = (Panic nil_dereference, w))
  ∧ (∀ name version org repo : string,
     ∃ str, ChartInfo_String (mkChartInfo (Some name) (Some version)
                                          (Some org) (Some repo)) w
            = (Val str, w))
  ∧ (∀ name version,
     UploadChart s ctx (mkChartInfo name version (Some "") (Some "")) w
     = uploadChartHelper s ctx "api/charts" w)
  ∧ (∀ name version : string,
     DeleteChart s ctx (mkChartInfo (Some name) (Some version) (Some "") (Some "")) w
     = deleteChartHelper s ctx ("api/charts/" +:+ name +:+ "/" +:+ version) w).
Proof.
  split_and!.
  - reflexivity.
  - intros name version org. unfold UploadChart. run. cbn [Org Repo].
    by destruct (nonempty org).
  - reflexivity.
  - intros [name|] [version|] [org|] [repo|] H; try reflexivity.
    + exfalso. destruct H as [H|[H|[H|H]]]; discriminate H.
    + unfold DeleteChart. run. cbn [Name Version Org Repo].
      by destruct (nonempty org).
  - intros [name|] [version|] [org|] [repo|] H; try reflexivity.
    + exfalso. destruct H as [H|[H|[H|H]]]; discriminate H.
    + unfold ChartInfo_String. run. cbn [Name Version Org Repo].
      by destruct (nonempty org).
  - intros name version org repo. unfold ChartInfo_String. run.
    cbn [Name Version Org Repo].
    destruct (nonempty org); [eauto|]. destruct (nonempty repo); eauto.
  - intros name version. by rewrite UploadChart_defined.
  - intros name version. by rewrite DeleteChart_defined.
Qed.

End Charts.

(* ===================================================================== *)
(** ** The transport client: responses, construction, requests *)
(* ===================================================================== *)

Section Transport.
Context `{lib : GoLib}.
Implicit Types (c : Client) (ctx : context.Context) (w : World).

Lemma fmt_Errorf_plain (msg : string) :
  has_byte "%" msg = false → fmt_Errorf msg [] = errorString msg.
Proof. intros H. unfold fmt_Errorf, Sprintf. by rewrite doPrintf_plain. Qed.

(** [parseResponse] returns the envelope, and an error exactly when the
    status read through the envelope is outside 200..299. *)
Lemma parseResponse_envelope (r : http.Response) :
  parseResponse r =
    (Some (envelope r),
     if decide (success (http.StatusCode (Response_ (envelope r))))
     then None
     else Some (fmt_Errorf (Error (envelope r)) [])).
Proof.
  unfold parseResponse, envelope, ioutil_ReadAll, success.
  destruct (http.failure (http.RespBody r)) as [e|];
    (case_decide as Hc;
     [ assert ((200 <=? _) && (_ <=? 299) = true) as ->; [|reflexivity];
       apply andb_true_intro; split; apply Z.leb_le; apply Hc
     | assert ((200 <=? _) && (_ <=? 299) = false) as ->; [|reflexivity];
       apply not_true_is_false; intros [?%Z.leb_le ?%Z.leb_le]%andb_prop;
       apply Hc; split; assumption ]).
Qed.

(** When the decoder leaves the status alone and the error field has no
    ['%'], the outcome is the one the specification words. *)
Lemma parseResponse_plain (r : http.Response) :
  http.StatusCode (Response_ (envelope r)) = http.StatusCode r →
  has_byte "%" (Error (envelope r)) = false →
  (success (http.StatusCode r) → parseResponse r = (Some (envelope r), None))
  ∧ (¬ success (http.StatusCode r) →
     parseResponse r = (Some (envelope r), Some (errorString (Error (envelope r))))).
Proof.
  intros Hcode Hplain. rewrite parseResponse_envelope, Hcode.
  split; intros H; case_decide; try done. by rewrite fmt_Errorf_plain.
Qed.

(** C1.  A response with status 500 whose body decodes to the error field
    [100%]: the error [parseResponse] returns reads [100%!(NOVERB)], not
    the error field, which [fmt.Errorf] took for a format. *)
Theorem C1_error_text_is_formatted (r : http.Response) :
  http.StatusCode r = 500 →
  http.RespBody r = http.mkReadCloser Inputs.error_body None →
  json_Unmarshal Inputs.error_body (mkResponse r "" "" false false false)
    = (mkResponse r "" "100%" false false false, None) →
  ∃ response e,
    parseResponse r = (Some response, Some e)
    ∧ Error response = "100%"
    ∧ Error_text e = "100%!(NOVERB)"
    ∧ Error_text e ≠ Error response.
Proof.
  intros Hcode Hbody Hjson.
  exists (mkResponse r "" "100%" false false false), (errorString "100%!(NOVERB)").
  split_and!; try done.
  unfold parseResponse, ioutil_ReadAll. rewrite Hbody. cbn [http.bytes http.failure].
  rewrite Hjson. cbn [fst Response_ Error]. by rewrite Hcode.
Qed.

(** C6.  When the transport fails, [Do] returns [ctx.Err()] if the context
    is done at that moment, and the transport's own error if it is not. *)
Theorem C6_transport_failure c ctx (req : http.Request) w (e : error) :
  http.err (http.Do (httpClient c) (http.WithContext ctx req)
                    (payload (http.WithContext ctx req) (file w))) = Some e →
  (context.Done ctx = true →
     (Do c ctx (Some req) w).1 = Val (None, context.Err ctx))
  ∧ (context.Done ctx = false →
     (Do c ctx (Some req) w).1 = Val (None, Some e)).
Proof.
  intros Herr. unfold Do. cbv [mbind mret M_bind M_ret get_file put_file log].
  cbn [file trace]. rewrite Herr.
  split; intros ->; reflexivity.
Qed.

(** On a response of the transport, [Do] returns what [parseResponse] does. *)
Lemma Do_response c ctx (req : http.Request) w (r : http.Response) :
  let x := http.Do (httpClient c) (http.WithContext ctx req)
                   (payload (http.WithContext ctx req) (file w)) in
  http.err x = None → http.resp x = Some r →
  (Do c ctx (Some req) w).1 = Val (parseResponse r).
Proof.
  intros x Herr Hresp. unfold Do.
  cbv [mbind mret M_bind M_ret get_file put_file log]. cbn [file trace].
  fold x. by rewrite Herr, Hresp.
Qed.

(** The base URL [NewClient] stores for a parsed URL. *)
Lemma NewClient_parsed (baseURL : string) (hc : option http.Client) (u : url.URL) :
  baseURL ≠ "" → url_Parse baseURL = Ok u →
  NewClient baseURL hc =
    (Some (mkClient (if HasSuffix (url.Path u) "/" then u
                     else url.set_Path (url.Path u +:+ "/") u)
                    userAgent (default http_DefaultClient hc)), None).
Proof.
  intros Hne%String.eqb_neq Hparse. unfold NewClient. rewrite Hne, Hparse.
  destruct (HasSuffix (url.Path u) "/"), hc; reflexivity.
Qed.

(** [NewClient] fails on the empty string and on a base URL that does
    not parse.  On one that parses, the path of the stored base URL ends in
    a slash.  Two base URLs that parse to the same URL but for the slash at
    the end of [Path] (so with the same [RawPath]: paths the parser keeps
    no raw form of) give the same client, so every relative path resolves
    alike and [NewRequest] builds the same request from both. *)
Theorem NewClient_normalizes_plain_paths (hc : option http.Client) :
  (∃ e, NewClient "" hc = (None, Some e))
  ∧ (∀ baseURL e, url_Parse baseURL = Err e →
       ∃ e', NewClient baseURL hc = (None, Some e'))
  ∧ (∀ baseURL u, baseURL ≠ "" → url_Parse baseURL = Ok u →
       ∃ c, NewClient baseURL hc = (Some c, None)
            ∧ HasSuffix (url.Path (BaseURL c)) "/" = true)
  ∧ (∀ without with_ u, without ≠ "" → with_ ≠ "" →
       url_Parse without = Ok u →
       HasSuffix (url.Path u) "/" = false →
       url_Parse with_ = Ok (url.set_Path (url.Path u +:+ "/") u) →
       ∃ c c', NewClient without hc = (Some c, None)
               ∧ NewClient with_ hc = (Some c', None)
               ∧ url.Path (BaseURL c) = url.Path u +:+ "/"
               ∧ (∀ ref, URL_Parse (BaseURL c) ref = URL_Parse (BaseURL c') ref)
               ∧ (∀ method ref body,
                    NewRequest c method ref body = NewRequest c' method ref body)).
Proof.
  split_and!.
  - eexists. reflexivity.
  - intros baseURL e Hparse. unfold NewClient.
    destruct (String.eqb baseURL ""); [eauto|]. rewrite Hparse. eauto.
  - intros baseURL u Hne Hparse. eexists. split; [by apply NewClient_parsed|].
    cbn [BaseURL]. destruct (HasSuffix (url.Path u) "/") eqn:Hs; [done|].
    apply HasSuffix_slash_append.
  - intros without with_ u Hne Hne' Hparse Hs Hparse'.
    rewrite (NewClient_parsed without hc u), (NewClient_parsed with_ hc _) by done.
    rewrite Hs. cbn [url.set_Path url.Path]. rewrite HasSuffix_slash_append.
    do 2 eexists. split_and!; reflexivity.
Qed.

(** C5.  The base URL [http://h/a%2Fb], with and without the slash at the
    end, given what [net/url] returns for the two strings and for the
    resolution of [api/charts].  [NewClient] succeeds on both and both
    stored paths end in a slash, but it appends the slash to [Path] alone:
    the client of the URL without the slash keeps the raw path [/a%2Fb],
    which no longer encodes its path.  The two stored base URLs differ, and
    [api/charts] resolves to different URLs against them. *)
Theorem C5_RawPath_goes_stale (hc : option http.Client) :
  url_Parse "http://h/a%2Fb" = Ok Escapes.escaped →
  url_Parse "http://h/a%2Fb/" = Ok Escapes.escaped_slash →
  URL_Parse (url.set_Path "/a/b/" Escapes.escaped) "api/charts"
  = Ok Escapes.resolved_plain →
  URL_Parse Escapes.escaped_slash "api/charts" = Ok Escapes.resolved_raw →
  ∃ c c',
    NewClient "http://h/a%2Fb" hc = (Some c, None)
    ∧ NewClient "http://h/a%2Fb/" hc = (Some c', None)
    ∧ HasSuffix (url.Path (BaseURL c)) "/" = true
    ∧ HasSuffix (url.Path (BaseURL c')) "/" = true
    ∧ url.Path (BaseURL c) = url.Path (BaseURL c')
    ∧ url.RawPath (BaseURL c) = "/a%2Fb"
    ∧ url.RawPath (BaseURL c') = "/a%2Fb/"
    ∧ BaseURL c ≠ BaseURL c'
    ∧ URL_Parse (BaseURL c) "api/charts" = Ok Escapes.resolved_plain
    ∧ URL_Parse (BaseURL c') "api/charts" = Ok Escapes.resolved_raw
    ∧ URL_Parse (BaseURL c) "api/charts" ≠ URL_Parse (BaseURL c') "api/charts".
Proof.
  intros Hparse Hparse' Hresolve Hresolve'.
  exists (mkClient (url.set_Path "/a/b/" Escapes.escaped) userAgent
                   (default http_DefaultClient hc)),
         (mkClient Escapes.escaped_slash userAgent (default http_DefaultClient hc)).
  split_and!.
  - rewrite (NewClient_parsed "http://h/a%2Fb" hc Escapes.escaped); done.
  - rewrite (NewClient_parsed "http://h/a%2Fb/" hc Escapes.escaped_slash); done.
  - reflexivity.
  - reflexivity.
  - reflexivity.
  - reflexivity.
  - reflexivity.
  - discriminate.
  - exact Hresolve.
  - exact Hresolve'.
  - cbn [BaseURL]. rewrite Hresolve, Hresolve'. discriminate.
Qed.

Lemma Header_Set_lookup (k v k' : string) (r : http.Request) :
  http.Header (http.Header_Set k v r) !! k'
  = if decide (k = k') then Some [v] else http.Header r !! k'.
Proof. cbn [http.Header_Set http.Header]. apply lookup_insert. Qed.

Lemma ReqBody_Header_Set (k v : string) (r : http.Request) :
  http.ReqBody (http.Header_Set k v r) = http.ReqBody r.
Proof. reflexivity. Qed.

Lemma NewClient_UserAgent (baseURL : string) (hc : option http.Client) c :
  NewClient baseURL hc = (Some c, None) → UserAgent c = userAgent.
Proof.
  unfold NewClient. destruct (String.eqb baseURL ""); [discriminate|].
  destruct (url_Parse baseURL); [|discriminate]. by intros [= <-].
Qed.

(** C7.  A request [NewRequest] builds has the header [Accept] set to the
    media type of the API; [Content-Type] is [application/json] when a body
    is given and absent when none is; a body is the JSON encoding made with
    HTML escaping off.  [User-Agent] is the client's [UserAgent] when that
    is not the empty string, and absent when it is; a client that
    [NewClient] built has [go-chartmuseum] there. *)
Theorem C7_NewRequest_headers c (method urlStr : string) (body : option Value)
    (req : http.Request) :
  NewRequest c method urlStr body = (Some req, None) →
  http.Header req !! "Accept" = Some [mediaType]
  ∧ http.Header req !! "Content-Type"
    = (if body is Some _ then Some ["application/json"] else None)
  ∧ http.Header req !! "User-Agent"
    = (if decide (UserAgent c = "") then None else Some [UserAgent c])
  ∧ (∀ baseURL hc, NewClient baseURL hc = (Some c, None) →
       http.Header req !! "User-Agent" = Some ["go-chartmuseum"])
  ∧ match body with
    | None => http.ReqBody req = None
    | Some v => ∃ b, json_Encode false v = Ok b
                     ∧ http.ReqBody req = Some (http.BufferBody b)
    end.
Proof.
  unfold NewRequest.
  destruct (HasSuffix _ _); [|discriminate]. cbn [negb].
  destruct (URL_Parse _ _) as [u|]; [|discriminate].
  destruct (encode_body body) as [buf|] eqn:Hbuf; [|discriminate].
  destruct (http_NewRequest _ _ _) as [r0|] eqn:Hreq; [|discriminate].
  pose proof (http_NewRequest_Header _ _ _ _ Hreq) as Hh.
  pose proof (http_NewRequest_Body _ _ _ _ Hreq) as Hb.
  intros [= <-].
  assert (∀ r, http.Header r !! "User-Agent" = None →
            http.Header (if nonempty (UserAgent c)
                         then http.Header_Set "User-Agent" (UserAgent c) r
                         else r) !! "User-Agent"
            = (if decide (UserAgent c = "") then None else Some [UserAgent c]))
    as Hua.
  { intros r Hr. destruct (nonempty (UserAgent c)) eqn:Hn.
    - apply nonempty_true in Hn. rewrite Header_Set_lookup.
      by repeat case_decide.
    - apply nonempty_false in Hn. by case_decide. }
  assert (∀ r : http.Request,
            (if nonempty (UserAgent c)
             then http.Header_Set "User-Agent" (UserAgent c) r else r)
            = r ∨ (if nonempty (UserAgent c)
                   then http.Header_Set "User-Agent" (UserAgent c) r else r)
                  = http.Header_Set "User-Agent" (UserAgent c) r) as Hcases.
  { intros r. destruct (nonempty (UserAgent c)); auto. }
  split_and!.
  - destruct (Hcases (http.Header_Set "Accept" mediaType
              (if body is Some _
               then http.Header_Set "Content-Type" "application/json" r0
               else r0))) as [-> | ->];
      rewrite ?Header_Set_lookup; by repeat case_decide.
  - destruct (Hcases (http.Header_Set "Accept" mediaType
              (if body is Some _
               then http.Header_Set "Content-Type" "application/json" r0
               else r0))) as [-> | ->];
      destruct body; rewrite ?Header_Set_lookup, ?Hh;
      by repeat case_decide.
  - apply Hua. destruct body; rewrite ?Header_Set_lookup, ?Hh;
      by repeat case_decide.
  - intros baseURL hc HC. apply NewClient_UserAgent in HC.
    rewrite Hua.
    + rewrite HC. by case_decide.
    + destruct body; rewrite ?Header_Set_lookup, ?Hh; by repeat case_decide.
  - destruct (Hcases (http.Header_Set "Accept" mediaType
              (if body is Some _
               then http.Header_Set "Content-Type" "application/json" r0
               else r0))) as [-> | ->];
      rewrite ?ReqBody_Header_Set;
      (destruct body as [v|]; rewrite ?ReqBody_Header_Set, Hb;
       unfold encode_body in Hbuf;
       [ destruct (json_Encode false v) as [b|]; [|discriminate];
         injection Hbuf as <-; eauto
       | by injection Hbuf as <- ]).
Qed.

End Transport.

(* ===================================================================== *)
(** ** The upload: the file check and the content-type sniff *)
(* ===================================================================== *)

Lemma prefix_substring (s : string) (n : nat) :
  String.prefix (String.substring 0 n s) s = true.
Proof.
  revert n. induction s as [|x s IH]; intros [|n]; cbn; try reflexivity.
  destruct (ascii_dec x x) as [_|Hne]; [apply IH | by destruct Hne].
Qed.

Lemma prefix_empty (s : string) : String.prefix "" s = true.
Proof. by destruct s. Qed.

(** A read that fails takes nothing and moves nothing. *)
Lemma Read_failure (f f' : os.File) (n : nat) (got : string) (e : error) :
  os.Read f n = ((got, Some e), f') → got = "" ∧ f' = f.
Proof.
  unfold os.Read. destruct (os.readErr f); [by intros [= <- _ <-]|].
  destruct (os.isDir f); [by intros [= <- _ <-]|].
  destruct (_ && _); [by intros [= <- _ <-] | discriminate].
Qed.

(** A read that succeeds takes the next bytes, [n] at most, and moves the
    handle past them. *)
Lemma Read_success (f f' : os.File) (n : nat) (got : string) :
  os.Read f n = ((got, None), f') →
  got = String.substring (os.offset f) n (os.data f)
  ∧ f' = os.set_offset (os.offset f + String.length got) f.
Proof.
  unfold os.Read. destruct (os.readErr f); [discriminate|].
  destruct (os.isDir f); [discriminate|].
  destruct (_ && _); [discriminate|]. by intros [= <- <-].
Qed.

Lemma set_offset_same (f : os.File) : os.set_offset (os.offset f) f = f.
Proof. by destruct f. Qed.

Lemma set_offset_twice (f : os.File) (a b : nat) :
  os.set_offset a (os.set_offset b f) = os.set_offset a f.
Proof. reflexivity. Qed.

Lemma remaining_at_start (f : os.File) :
  os.offset f = 0%nat → os.readErr f = None → os.isDir f = false →
  os.remaining f = os.data f.
Proof.
  unfold os.remaining. intros -> -> ->. rewrite Nat.sub_0_r. apply substring_all.
Qed.

(** [Seek(0, 0)]: to the start, unless the handle cannot seek. *)
Lemma Seek_start (f : os.File) :
  os.Seek f 0 0 = match os.seekErr f with
                  | Some e => (Err e, f)
                  | None => (Ok 0, os.set_offset 0 f)
                  end.
Proof. unfold os.Seek. by destruct (os.seekErr f). Qed.

Section Upload.
Context `{lib : GoLib}.
Implicit Types (s : ChartService) (ctx : context.Context) (f : os.File)
               (tr : list Event).

(** [detectContentType], by the outcome of its read. *)
Lemma detectContentType_run f tr :
  detectContentType (mkWorld f tr) =
    match os.Read f 512 with
    | ((got, Some e), f') =>
        (Val ("application/octet-stream", Some e),
         mkWorld f' (tr ++ [EvRead 512 got]))
    | ((got, None), f') =>
        (Val (http_DetectContentType (filled 512 got), None),
         mkWorld (os.Seek f' 0 0).2 ((tr ++ [EvRead 512 got]) ++ [EvSeek 0 0]))
    end.
Proof.
  unfold detectContentType. run_io.
  destruct (os.Read f 512) as [[got [e|]] f']; [reflexivity|].
  cbn [file trace fst snd]. by destruct (os.Seek f' 0 0) as [r f''].
Qed.

(** [uploadChartHelper] on a file that [Stat] reports as no directory. *)
Lemma uploadChartHelper_run s ctx (u : string) f tr :
  os.statErr f = None → os.isDir f = false →
  uploadChartHelper s ctx u (mkWorld f tr) =
    match detectContentType (mkWorld f (tr ++ [EvStat])) with
    | (Val (mediaType, _), w) =>
        send_upload s ctx u (Z.of_nat (String.length (os.data f))) mediaType w
    | (Panic msg, w) => (Panic msg, w)
    end.
Proof.
  intros Hstat Hdir. unfold uploadChartHelper, send_upload.
  cbv [mbind mret M_bind M_ret get_file log file_Stat]. cbn [file trace].
  unfold os.Stat. rewrite Hstat. cbn [os.IsDir os.Size]. rewrite Hdir.
  destruct (detectContentType _) as [[[mt e]|msg] w]; reflexivity.
Qed.

(** What [send_upload] adds to the trace, and the errors it returns. *)
Lemma send_upload_run s ctx (u : string) (size : Z) (mediaType : string) (w : World) :
  match NewUploadRequest (client s) u size mediaType with
  | (_, Some e) =>
      send_upload s ctx u size mediaType w
      = (Val (None, Some (withMessage e "Failed creating upload request")),
         mkWorld (file w) (trace w ++ [EvNewRequest "POST" u]))
  | (None, None) =>
      send_upload s ctx u size mediaType w
      = (Panic nil_dereference,
         mkWorld (file w) (trace w ++ [EvNewRequest "POST" u]))
  | (Some req, None) =>
      let req' := http.WithContext ctx req in
      let x := http.Do (httpClient (client s)) req' (payload req' (file w)) in
      trace (send_upload s ctx u size mediaType w).2
      = ((trace w ++ [EvNewRequest "POST" u]) ++ [EvDo req' (payload req' (file w))])%list
      ∧ (send_upload s ctx u size mediaType w).1
        = match http.err x, http.resp x with
          | Some e, _ =>
              Val (None, errors_Wrap
                           (if context.Done ctx then context.Err ctx else Some e)
                           "Failed to do upload request")
          | None, None => Panic nil_dereference
          | None, Some r =>
              Val ((parseResponse r).1,
                   errors_Wrap (parseResponse r).2 "Failed to do upload request")
          end
  end.
Proof.
  unfold send_upload, Do. run_io.
  destruct (NewUploadRequest _ _ _ _) as [[req|] [e|]]; try reflexivity.
  run_io. cbv zeta.
  destruct (http.err _) as [e|].
  - destruct (context.Done ctx); [destruct (context.Err ctx)|]; done.
  - destruct (http.resp _) as [r|]; [|done].
    destruct (parseResponse r) as [resp [e|]]; done.
Qed.

(** The request [NewUploadRequest] builds: the file as body, the declared
    length and the content type it was given. *)
Lemma NewUploadRequest_built (c : Client) (u : string) (size : Z)
    (mediaType : string) (req : http.Request) :
  NewUploadRequest c u size mediaType = (Some req, None) →
  http.ReqBody req = Some http.FileBody
  ∧ http.ContentLength req = size
  ∧ http.Header req !! "Content-Type" = Some [mediaType].
Proof.
  unfold NewUploadRequest.
  destruct (HasSuffix _ _); [|discriminate]. cbn [negb].
  destruct (URL_Parse _ _) as [u'|]; [|discriminate].
  destruct (http_NewRequest _ _ _) as [r0|] eqn:Hreq; [|discriminate].
  pose proof (http_NewRequest_Body _ _ _ _ Hreq) as Hb.
  intros [= <-]. split_and!; [exact Hb | reflexivity |].
  rewrite !Header_Set_lookup. by repeat case_decide.
Qed.

(** The bytes sent for an upload request are what is left of the file. *)
Lemma payload_upload (c : Client) (u : string) (size : Z) (mediaType : string)
    (req : http.Request) ctx f :
  NewUploadRequest c u size mediaType = (Some req, None) →
  payload (http.WithContext ctx req) f = os.remaining f.
Proof.
  intros (Hb & _)%NewUploadRequest_built. unfold payload.
  cbn [http.WithContext http.ReqBody]. by rewrite Hb.
Qed.

(** A read of a regular file from offset 0 fails only at the end of an
    empty file. *)
Lemma Read_failure_at_start (f f' : os.File) (n : nat) (got : string) (e : error) :
  os.offset f = 0%nat → os.readErr f = None → os.isDir f = false →
  os.Read f n = ((got, Some e), f') → e = io_EOF ∧ os.data f = "".
Proof.
  unfold os.Read. intros -> -> ->.
  destruct (_ && _) eqn:Hempty; [|discriminate].
  intros [= _ <- _]. split; [reflexivity|].
  apply andb_prop in Hempty as [Hlen Hn].
  apply Nat.eqb_eq in Hlen. apply Nat.ltb_lt in Hn.
  destruct n as [|n]; [lia|]. destruct (os.data f); [reflexivity | discriminate].
Qed.

(** C4.  On a handle that can seek and stands at offset 0, the sniff reads
    once, 512 bytes at most, from the start of the file, and leaves the
    handle as it found it, at offset 0, whatever type it detects and also
    when the read fails.  When reads on the handle work, the sniff read
    fails only with [io.EOF] on an empty file, and the upload request
    delivers the whole content. *)
Theorem C4_sniff_leaves_fresh_handle f tr :
  os.offset f = 0%nat →
  os.seekErr f = None →
  ∃ (mediaType : string) (err : option error) (got : string),
    let sniff := EvRead 512 got :: (if err is None then [EvSeek 0 0] else []) in
    detectContentType (mkWorld f tr)
      = (Val (mediaType, err), mkWorld f (tr ++ sniff))
    ∧ (String.length got ≤ 512)%nat
    ∧ String.prefix got (os.data f) = true
    ∧ (os.readErr f = None → os.isDir f = false →
       os.remaining f = os.data f
       ∧ (∀ e, err = Some e → e = io_EOF ∧ os.data f = "")
       ∧ ∀ s ctx u req,
           os.statErr f = None →
           NewUploadRequest (client s) u (Z.of_nat (String.length (os.data f)))
                            mediaType = (Some req, None) →
           trace (uploadChartHelper s ctx u (mkWorld f tr)).2
           = (tr ++ [EvStat] ++ sniff
                 ++ [EvNewRequest "POST" u;
                     EvDo (http.WithContext ctx req) (os.data f)])%list).
Proof.
  intros Hoff Hseek.
  assert (os.set_offset 0 f = f) as Hsame
    by (rewrite <- Hoff; apply set_offset_same).
  destruct (os.Read f 512) as [[got [e|]] f'] eqn:HR.
  - apply Read_failure in HR as Hfail. destruct Hfail as [-> ->].
    exists "application/octet-stream", (Some e), "". cbv zeta.
    split_and!.
    + by rewrite detectContentType_run, HR.
    + cbn. lia.
    + apply prefix_empty.
    + intros Hread Hdir. split_and!.
      * by apply remaining_at_start.
      * intros e' [= <-]. by eapply Read_failure_at_start.
      * intros s ctx u req Hstat Hreq.
        rewrite uploadChartHelper_run, detectContentType_run, HR by done.
        pose proof (send_upload_run s ctx u (Z.of_nat (String.length (os.data f)))
                      "application/octet-stream"
                      (mkWorld f ((tr ++ [EvStat]) ++ [EvRead 512 ""]))) as Hs.
        rewrite Hreq in Hs. destruct Hs as [-> _]. cbn [trace file].
        rewrite (payload_upload _ _ _ _ _ _ _ Hreq), remaining_at_start by done.
        by rewrite <- !app_assoc.
  - apply Read_success in HR as Hok. destruct Hok as [Hgot ->].
    rewrite Hoff in Hgot.
    assert ((os.Seek (os.set_offset (os.offset f + String.length got) f) 0 0).2 = f)
      as Hback.
    { rewrite Seek_start. cbn [os.seekErr os.set_offset]. rewrite Hseek.
      cbn [snd]. by rewrite set_offset_twice. }
    exists (http_DetectContentType (filled 512 got)), None, got. cbv zeta.
    split_and!.
    + rewrite detectContentType_run, HR, Hback. by rewrite <- app_assoc.
    + rewrite Hgot. apply substring_length_le.
    + rewrite Hgot. apply prefix_substring.
    + intros Hread Hdir. split_and!.
      * by apply remaining_at_start.
      * discriminate.
      * intros s ctx u req Hstat Hreq.
        rewrite uploadChartHelper_run, detectContentType_run, HR, Hback by done.
        pose proof (send_upload_run s ctx u (Z.of_nat (String.length (os.data f)))
                      (http_DetectContentType (filled 512 got))
                      (mkWorld f (((tr ++ [EvStat]) ++ [EvRead 512 got])
                                    ++ [EvSeek 0 0]))) as Hs.
        rewrite Hreq in Hs. destruct Hs as [-> _]. cbn [trace file].
        rewrite (payload_upload _ _ _ _ _ _ _ Hreq), remaining_at_start by done.
        by rewrite <- !app_assoc.
Qed.

(** [errors.Wrap] never yields the error of the directory check. *)
Lemma errors_Wrap_not_directory (err : option error) (msg : string) :
  errors_Wrap err msg ≠ Some directory_error.
Proof. by destruct err. Qed.

(** [send_upload] only adds to the trace, and its errors are wrapped. *)
Lemma send_upload_facts s ctx (u : string) (size : Z) (mediaType : string)
    (w : World) :
  (∀ resp, (send_upload s ctx u size mediaType w).1
           ≠ Val (resp, Some directory_error))
  ∧ ∃ rest, trace (send_upload s ctx u size mediaType w).2
            = (trace w ++ rest)%list.
Proof.
  pose proof (send_upload_run s ctx u size mediaType w) as H.
  destruct (NewUploadRequest _ _ _ _) as [[req|] [e|]].
  1,3,4: rewrite H; split; [by intros resp | by eexists].
  cbv zeta in H. destruct H as [Htr Hres]. split.
  - intros resp. rewrite Hres.
    destruct (http.err _); [|destruct (http.resp _)]; try done;
      intros [= _ Hw]; by apply errors_Wrap_not_directory in Hw.
  - rewrite Htr, <- app_assoc. by eexists.
Qed.

(** C8.  On a handle to a directory the upload returns an error and the
    trace gains at most the [Stat] call: nothing is read and no request is
    built or sent.  On any other handle the directory check does not fail,
    and when [Stat] works the upload goes on to the sniff. *)
Theorem C8_directory_check s ctx f tr :
  (os.isDir f = true →
     (∀ u, ∃ e,
        uploadChartHelper s ctx u (mkWorld f tr)
        = (Val (None, Some e), mkWorld f (tr ++ [EvStat]))
        ∧ (os.statErr f = None → e = directory_error))
     ∧ (∀ name version (org repo : string), ∃ e w',
        UploadChart s ctx (mkChartInfo name version (Some org) (Some repo))
                    (mkWorld f tr)
        = (Val (None, Some e), w')
        ∧ file w' = f
        ∧ (trace w' = tr ∨ trace w' = (tr ++ [EvStat])%list)))
  ∧ (os.isDir f = false →
     ∀ u,
       (∀ resp, (uploadChartHelper s ctx u (mkWorld f tr)).1
                ≠ Val (resp, Some directory_error))
       ∧ (os.statErr f = None →
          ∃ got rest,
            trace (uploadChartHelper s ctx u (mkWorld f tr)).2
            = (tr ++ EvStat :: EvRead 512 got :: rest)%list)).
Proof.
  assert (os.isDir f = true → ∀ u, ∃ e,
            uploadChartHelper s ctx u (mkWorld f tr)
            = (Val (None, Some e), mkWorld f (tr ++ [EvStat]))
            ∧ (os.statErr f = None → e = directory_error)) as Hdirectory.
  { intros Hdir u. unfold uploadChartHelper. run_io. unfold os.Stat.
    destruct (os.statErr f) as [e|].
    - eexists. split; [reflexivity | discriminate].
    - cbn [os.IsDir]. rewrite Hdir. eexists. split; reflexivity. }
  split.
  - intros Hdir. split; [by apply Hdirectory|].
    intros name version org repo. rewrite UploadChart_defined.
    specialize (Hdirectory Hdir).
    assert (∀ u, ∃ e w',
              uploadChartHelper s ctx u (mkWorld f tr) = (Val (None, Some e), w')
              ∧ file w' = f
              ∧ (trace w' = tr ∨ trace w' = (tr ++ [EvStat])%list)) as Hhelper.
    { intros u. destruct (Hdirectory u) as (e & -> & _).
      do 2 eexists. split_and!; [reflexivity..|]. by right. }
    destruct (nonempty org); [destruct (String.eqb repo "")
                             |destruct (nonempty repo)]; try apply Hhelper.
    do 2 eexists. split_and!; [reflexivity..|]. by left.
  - intros Hdir u. destruct (os.statErr f) as [e|] eqn:Hstat.
    + split; [|discriminate]. intros resp.
      unfold uploadChartHelper. run_io. unfold os.Stat. by rewrite Hstat.
    + rewrite uploadChartHelper_run, detectContentType_run by done.
      destruct (os.Read f 512) as [[got [e|]] f'];
        (match goal with
         | |- context [send_upload ?s ?c ?u ?sz ?mt ?w] =>
             destruct (send_upload_facts s c u sz mt w) as [Hne [rest Htr]]
         end;
         split; [exact Hne|]; intros _; rewrite Htr; cbn [trace];
         rewrite <- !app_assoc; cbn [app]; by do 2 eexists).
Qed.

(** C10.  When the sniff read fails, [detectContentType] returns
    [application/octet-stream] with the error and without a seek: the trace
    gains the read alone and the handle is as before.  [uploadChartHelper]
    drops the error and goes on with that content type; when the server
    then answers with a status in 200..299 the upload returns no error. *)
Theorem C10_sniff_error_is_dropped f tr (e : error) (got : string) (f' : os.File) :
  os.Read f 512 = ((got, Some e), f') →
  detectContentType (mkWorld f tr)
  = (Val ("application/octet-stream", Some e), mkWorld f (tr ++ [EvRead 512 ""]))
  ∧ ∀ s ctx u,
      os.statErr f = None → os.isDir f = false →
      let size := Z.of_nat (String.length (os.data f)) in
      uploadChartHelper s ctx u (mkWorld f tr)
      = send_upload s ctx u size "application/octet-stream"
                    (mkWorld f (tr ++ [EvStat; EvRead 512 ""]))
      ∧ ∀ req r,
          NewUploadRequest (client s) u size "application/octet-stream"
          = (Some req, None) →
          let x := http.Do (httpClient (client s)) (http.WithContext ctx req)
                           (os.remaining f) in
          http.err x = None → http.resp x = Some r →
          success (http.StatusCode (Response_ (envelope r))) →
          http.Header req !! "Content-Type" = Some ["application/octet-stream"]
          ∧ (uploadChartHelper s ctx u (mkWorld f tr)).1
            = Val (Some (envelope r), None).
Proof.
  intros HR. apply Read_failure in HR as Hfail. destruct Hfail as [-> ->].
  split; [by rewrite detectContentType_run, HR|].
  intros s ctx u Hstat Hdir size.
  assert (uploadChartHelper s ctx u (mkWorld f tr)
          = send_upload s ctx u size "application/octet-stream"
                        (mkWorld f (tr ++ [EvStat; EvRead 512 ""]))) as Hgo.
  { rewrite uploadChartHelper_run, detectContentType_run, HR by done.
    by rewrite <- app_assoc. }
  split; [exact Hgo|].
  intros req r Hreq x Herr Hresp Hok.
  split; [by apply NewUploadRequest_built in Hreq as (_ & _ & ?)|].
  rewrite Hgo.
  pose proof (send_upload_run s ctx u size "application/octet-stream"
                (mkWorld f (tr ++ [EvStat; EvRead 512 ""]))) as Hs.
  rewrite Hreq in Hs. cbv zeta in Hs. destruct Hs as [_ ->]. cbn [file].
  rewrite (payload_upload _ _ _ _ _ _ _ Hreq). fold x. rewrite Herr, Hresp.
  rewrite parseResponse_envelope. by case_decide.
Qed.

End Upload.

(* ===================================================================== *)
(** ** The theorems on concrete inputs *)
(* ===================================================================== *)

Import Inputs.
#[local] Existing Instance Sample.lib.

(** C1 at the response [500] with body [{"error":"100%"}]. *)
Lemma C1_error_text_is_formatted_witness :
  http.StatusCode server_error = 500
  ∧ ∃ response e,
      parseResponse (lib := Sample.lib) server_error = (Some response, Some e)
      ∧ Error response = "100%"
      ∧ Error_text e = "100%!(NOVERB)"
      ∧ Error_text e ≠ Error response.
Proof.
  split; [reflexivity|].
  apply (C1_error_text_is_formatted (lib := Sample.lib) server_error);
    reflexivity.
Defined.

(** C2 at org [acme] with an empty repo. *)
Lemma C2_org_without_repo_is_rejected_witness :
  "acme" ≠ ""
  ∧ UploadChart (lib := Sample.lib) (service Sample.unreachable) context.Background
      (chart "demo" "1.0.0" "acme" "") (start (chart_file 0))
    = (Val (None, Some repo_required), start (chart_file 0))
  ∧ DeleteChart (lib := Sample.lib) (service Sample.unreachable) context.Background
      (chart "demo" "1.0.0" "acme" "") (start (chart_file 0))
    = (Val (None, Some repo_required), start (chart_file 0)).
Proof.
  assert ("acme" ≠ "") as Hne by discriminate.
  split; [exact Hne|].
  destruct (C2_org_without_repo_is_rejected (lib := Sample.lib)
              (service Sample.unreachable) context.Background "acme"
              (start (chart_file 0)) Hne) as (Hup & Hdel & _).
  split; [apply Hup | apply Hdel].
Defined.

(** C3 at org [acme], repo [stable], chart [demo] version [1.0.0]. *)
Lemma C3_request_paths_witness :
  ("acme" ≠ "" → "stable" ≠ "")
  ∧ spec_upload_path "acme" "stable" = "api/acme/stable/charts"
  ∧ spec_delete_path "acme" "stable" "demo" "1.0.0"
    = "api/acme/stable/charts/demo/1.0.0"
  ∧ UploadChart (lib := Sample.lib) (service Sample.unreachable) context.Background
      (chart "demo" "1.0.0" "acme" "stable") (start (chart_file 0))
    = uploadChartHelper (service Sample.unreachable) context.Background
        (spec_upload_path "acme" "stable") (start (chart_file 0))
  ∧ DeleteChart (lib := Sample.lib) (service Sample.unreachable) context.Background
      (chart "demo" "1.0.0" "acme" "stable") (start (chart_file 0))
    = deleteChartHelper (service Sample.unreachable) context.Background
        (spec_delete_path "acme" "stable" "demo" "1.0.0") (start (chart_file 0)).
Proof.
  assert ("acme" ≠ "" → "stable" ≠ "") as Hvalid by (intros _; discriminate).
  split; [exact Hvalid|]. split; [reflexivity|]. split; [reflexivity|].
  apply (C3_request_paths (lib := Sample.lib) (service Sample.unreachable)
           context.Background "demo" "1.0.0" "acme" "stable"
           (start (chart_file 0)) Hvalid).
Defined.

(** C9 at charts whose scope or version pointers were left [nil]. *)
Lemma C9_nil_fields_panic_witness :
  DeleteChart (lib := Sample.lib) (service Sample.unreachable) context.Background
    (mkChartInfo (Some "demo") (Some "1.0.0") None None) (start (chart_file 0))
  = (Panic nil_dereference, start (chart_file 0))
  ∧ ChartInfo_String (lib := Sample.lib)
      (mkChartInfo (Some "demo") None (Some "") (Some "")) (start (chart_file 0))
    = (Panic nil_dereference, start (chart_file 0)).
Proof.
  destruct (C9_nil_fields_panic (lib := Sample.lib) (service Sample.unreachable)
              context.Background (start (chart_file 0)))
    as (_ & _ & _ & Hdel & Hstr & _).
  split.
  - apply Hdel. right. right. left. reflexivity.
  - apply Hstr. right. left. reflexivity.
Defined.

(** C4 as stated fails on a handle that does not stand at offset 0 and on
    one that cannot seek.  At the end of the file the read fails with
    [io.EOF], nothing seeks back, the handle stays at offset 22 and the
    upload request finds nothing left to deliver.  At offset 3 the bytes
    sniffed are not the first bytes of the file: the gzip signature is
    missed.  On a pipe the sniff takes the 22 bytes, the seek fails
    unnoticed and the upload request finds nothing left either. *)
Lemma C4_counterexample :
  let w := start (chart_file 22) in
  (detectContentType (lib := Sample.lib) w).1
  = Val ("application/octet-stream", Some io_EOF)
  ∧ os.offset (file (detectContentType (lib := Sample.lib) w).2) = 22%nat
  ∧ os.offset (file (detectContentType (lib := Sample.lib) w).2) ≠ 0%nat
  ∧ os.data (chart_file 22) = archive
  ∧ archive ≠ ""
  ∧ (∃ req,
      trace (uploadChartHelper (lib := Sample.lib)
               (service (Sample.answering 200 saved)) context.Background
               "api/charts" w).2
      = [EvStat; EvRead 512 ""; EvNewRequest "POST" "api/charts"; EvDo req ""])
  ∧ trace (detectContentType (lib := Sample.lib) (start (chart_file 3))).2
    = [EvRead 512 "rest of the archive"; EvSeek 0 0]
  ∧ String.prefix "rest of the archive" archive = false
  ∧ os.offset chart_pipe = 0%nat
  ∧ os.offset (file (detectContentType (lib := Sample.lib) (start chart_pipe)).2)
    = 22%nat
  ∧ (∃ req,
      trace (uploadChartHelper (lib := Sample.lib)
               (service (Sample.answering 200 saved)) context.Background
               "api/charts" (start chart_pipe)).2
      = [EvStat; EvRead 512 archive; EvSeek 0 0;
         EvNewRequest "POST" "api/charts"; EvDo req ""]).
Proof.
  cbv zeta.
  split_and!; [reflexivity | reflexivity | discriminate | reflexivity
              | discriminate | | reflexivity | reflexivity | reflexivity
              | reflexivity |];
    eexists; vm_compute; reflexivity.
Qed.

(** C4 at a freshly opened archive: the sniff sees the gzip signature, and
    the request delivers all 22 bytes. *)
Lemma C4_sniff_leaves_fresh_handle_witness :
  os.offset (chart_file 0) = 0%nat
  ∧ os.seekErr (chart_file 0) = None
  ∧ detectContentType (lib := Sample.lib) (start (chart_file 0))
    = (Val ("application/x-gzip", None),
       mkWorld (chart_file 0) [EvRead 512 archive; EvSeek 0 0])
  ∧ ∃ req,
      trace (uploadChartHelper (lib := Sample.lib)
               (service (Sample.answering 200 saved)) context.Background
               "api/charts" (start (chart_file 0))).2
      = [EvStat; EvRead 512 archive; EvSeek 0 0;
         EvNewRequest "POST" "api/charts"; EvDo req archive].
Proof.
  assert (os.offset (chart_file 0) = 0%nat) as Hoff by reflexivity.
  assert (os.seekErr (chart_file 0) = None) as Hseek by reflexivity.
  split; [exact Hoff|]. split; [exact Hseek|].
  destruct (C4_sniff_leaves_fresh_handle (lib := Sample.lib)
              (chart_file 0) [] Hoff Hseek)
    as (mt & err & got & Hsniff & _ & _ & Hdelivers).
  cbv zeta in Hsniff, Hdelivers.
  destruct (Hdelivers eq_refl eq_refl) as (_ & _ & Hupload).
  assert (mt = "application/x-gzip" ∧ err = None ∧ got = archive)
    as (-> & -> & ->).
  { vm_compute in Hsniff. destruct err; [discriminate|].
    by injection Hsniff as <- <-. }
  split; [exact Hsniff|].
  eexists. apply (Hupload (service (Sample.answering 200 saved))
                    context.Background "api/charts"); [reflexivity|].
  vm_compute. reflexivity.
Defined.

(** The normalization at [http://localhost:8080/museum] with and without
    the slash. *)
Lemma NewClient_normalizes_plain_paths_example :
  ∃ c,
    NewClient (lib := Sample.lib) "http://localhost:8080/museum" None = (Some c, None)
    ∧ NewClient (lib := Sample.lib) "http://localhost:8080/museum/" None = (Some c, None)
    ∧ url.Path (BaseURL c) = "/museum/"
    ∧ HasSuffix (url.Path (BaseURL c)) "/" = true
    ∧ ∃ e, NewClient (lib := Sample.lib) "http://localhost:8080/%zz" None = (None, Some e).
Proof.
  destruct (NewClient_normalizes_plain_paths (lib := Sample.lib) None)
    as (_ & Hbad & Hslash & Hstable).
  destruct (Hstable "http://localhost:8080/museum" "http://localhost:8080/museum/"
              (url.mkURL "http" "" None "localhost:8080" "/museum" "" false "" ""))
    as (c & c' & Hc & Hc' & Hpath & _); [discriminate | discriminate | reflexivity..|].
  destruct (Hslash "http://localhost:8080/museum"
              (url.mkURL "http" "" None "localhost:8080" "/museum" "" false "" ""))
    as (c0 & Hc0 & Hs); [discriminate | reflexivity |].
  assert (c0 = c) as -> by congruence.
  assert (c' = c) as ->.
  { vm_compute in Hc, Hc'. congruence. }
  exists c. split_and!; [exact Hc | exact Hc' | exact Hpath | exact Hs |].
  apply (Hbad "http://localhost:8080/%zz" (Sample.unsupported "parse" "http://localhost:8080/%zz")).
  reflexivity.
Defined.

(** C5 on the library instance that keeps raw paths: the two clients, and
    the two requests [NewRequest] builds for [api/charts], which go to
    different URLs. *)
Lemma C5_RawPath_goes_stale_witness :
  url_Parse (GoLib := Escapes.lib) "http://h/a%2Fb" = Ok Escapes.escaped
  ∧ url_Parse (GoLib := Escapes.lib) "http://h/a%2Fb/" = Ok Escapes.escaped_slash
  ∧ ∃ c c',
      NewClient (lib := Escapes.lib) "http://h/a%2Fb" None = (Some c, None)
      ∧ NewClient (lib := Escapes.lib) "http://h/a%2Fb/" None = (Some c', None)
      ∧ URL_Parse (GoLib := Escapes.lib) (BaseURL c) "api/charts"
        ≠ URL_Parse (GoLib := Escapes.lib) (BaseURL c') "api/charts"
      ∧ URL_String (GoLib := Escapes.lib) Escapes.resolved_plain
        = "http://h/a/b/api/charts"
      ∧ URL_String (GoLib := Escapes.lib) Escapes.resolved_raw
        = "http://h/a%2Fb/api/charts".
Proof.
  split; [reflexivity|]. split; [reflexivity|].
  destruct (C5_RawPath_goes_stale (lib := Escapes.lib) None
              eq_refl eq_refl eq_refl eq_refl)
    as (c & c' & Hc & Hc' & _ & _ & _ & _ & _ & _ & _ & _ & Hdiffer).
  exists c, c'. split_and!; [exact Hc | exact Hc' | exact Hdiffer | reflexivity..].
Defined.

(** C6 at a transport with no network, under a cancelled context and under
    the background context. *)
Lemma C6_transport_failure_witness :
  (Do (lib := Sample.lib) (museum Sample.unreachable) canceled
      (Some bare_request) (start (chart_file 0))).1
  = Val (None, Some context_Canceled)
  ∧ (Do (lib := Sample.lib) (museum Sample.unreachable) context.Background
        (Some bare_request) (start (chart_file 0))).1
    = Val (None, Some (sysError "dial tcp" "" "connection refused")).
Proof.
  split.
  - apply (C6_transport_failure (lib := Sample.lib) (museum Sample.unreachable)
             canceled bare_request (start (chart_file 0))
             (sysError "dial tcp" "" "connection refused")); reflexivity.
  - apply (C6_transport_failure (lib := Sample.lib) (museum Sample.unreachable)
             context.Background bare_request (start (chart_file 0))
             (sysError "dial tcp" "" "connection refused")); reflexivity.
Defined.

(** C7 as stated fails on a client whose [UserAgent] is the empty string:
    the request is built, and it has no [User-Agent] header. *)
Lemma C7_counterexample :
  ∃ req,
    NewRequest (lib := Sample.lib) (anonymous Sample.unreachable)
               "DELETE" "api/charts/demo/1.0.0" None
    = (Some req, None)
    ∧ http.Header req !! "User-Agent" = None
    ∧ http.Header_Get "User-Agent" req = "".
Proof.
  eexists. split; [vm_compute; reflexivity|]. split; vm_compute; reflexivity.
Qed.

(** C7 at a client of [NewClient] and a request with a body. *)
Lemma C7_NewRequest_headers_witness :
  ∃ req,
    NewRequest (lib := Sample.lib) (museum Sample.unreachable)
               "POST" "api/charts" (Some true)
    = (Some req, None)
    ∧ http.Header req !! "Accept" = Some ["application/vnd.chartmuseum.v0+json"]
    ∧ http.Header req !! "Content-Type" = Some ["application/json"]
    ∧ http.Header req !! "User-Agent" = Some ["go-chartmuseum"]
    ∧ http.ReqBody req = Some (http.BufferBody ("true" +:+ String "010" "")).
Proof.
  eexists. split; [vm_compute; reflexivity|].
  match goal with
  | |- context [http.Header ?r] =>
      destruct (C7_NewRequest_headers (lib := Sample.lib)
                  (museum Sample.unreachable) "POST" "api/charts" (Some true) r)
        as (Hacc & Hct & Hua & _ & (b & Hb & Hbody))
  end; [vm_compute; reflexivity|].
  split_and!; [exact Hacc | exact Hct | exact Hua |].
  rewrite Hbody. vm_compute in Hb. by injection Hb as <-.
Defined.

(** C8 at a directory and at a packaged chart. *)
Lemma C8_directory_check_witness :
  os.isDir directory = true
  ∧ os.isDir (chart_file 0) = false
  ∧ uploadChartHelper (lib := Sample.lib) (service Sample.unreachable)
      context.Background "api/charts" (start directory)
    = (Val (None, Some directory_error), mkWorld directory [EvStat])
  ∧ ∃ got rest,
      trace (uploadChartHelper (lib := Sample.lib) (service Sample.unreachable)
               context.Background "api/charts" (start (chart_file 0))).2
      = EvStat :: EvRead 512 got :: rest.
Proof.
  assert (os.isDir directory = true) as Hdir by reflexivity.
  assert (os.isDir (chart_file 0) = false) as Hfile by reflexivity.
  split; [exact Hdir|]. split; [exact Hfile|]. split.
  - destruct (C8_directory_check (lib := Sample.lib) (service Sample.unreachable)
                context.Background directory []) as [Hrejected _].
    destruct (Hrejected Hdir) as [Hhelper _].
    destruct (Hhelper "api/charts") as (e & He & Hwhich).
    unfold start. rewrite He. by rewrite (Hwhich eq_refl).
  - destruct (C8_directory_check (lib := Sample.lib) (service Sample.unreachable)
                context.Background (chart_file 0) []) as [_ Hpasses].
    destruct (Hpasses Hfile "api/charts") as [_ Hsniffs].
    exact (Hsniffs eq_refl).
Defined.

(** C10 at an empty file, against a server that answers [200]. *)
Lemma C10_sniff_error_is_dropped_witness :
  os.Read empty_file 512 = (("", Some io_EOF), empty_file)
  ∧ detectContentType (lib := Sample.lib) (start empty_file)
    = (Val ("application/octet-stream", Some io_EOF),
       mkWorld empty_file [EvRead 512 ""])
  ∧ ∃ response,
      (uploadChartHelper (lib := Sample.lib) (service (Sample.answering 200 saved))
         context.Background "api/charts" (start empty_file)).1
      = Val (Some response, None)
      ∧ Saved response = true.
Proof.
  assert (os.Read empty_file 512 = (("", Some io_EOF), empty_file)) as HR
    by reflexivity.
  split; [exact HR|].
  destruct (C10_sniff_error_is_dropped (lib := Sample.lib) empty_file []
              io_EOF "" empty_file HR) as [Hsniff Hupload].
  split; [exact Hsniff|].
  destruct (Hupload (service (Sample.answering 200 saved)) context.Background
              "api/charts" eq_refl eq_refl) as [_ Hsent].
  cbv zeta in Hsent.
  destruct (NewUploadRequest (lib := Sample.lib)
              (client (service (Sample.answering 200 saved))) "api/charts"
              (Z.of_nat (String.length (os.data empty_file)))
              "application/octet-stream") as [[req|] [e|]] eqn:Hreq;
    try (vm_compute in Hreq; discriminate).
  destruct (Hsent req
              (http.mkResponse "" 200 ∅ (http.mkReadCloser saved None))
              eq_refl eq_refl eq_refl) as [_ Hres].
  - vm_compute. split; discriminate.
  - eexists. split; [exact Hres | reflexivity].
Defined.

(* ===================================================================== *)
(** ** More on the transport client *)
(* ===================================================================== *)

Section Requests.
Context `{lib : GoLib}.
Implicit Types (c : Client) (s : ChartService) (ctx : context.Context)
               (w : World).

(** X1.  An upload request has two header fields, [Content-Type] and
    [User-Agent], the latter also when the client's [UserAgent] is empty;
    unlike the requests of [NewRequest] it has no [Accept] header. *)
Theorem NewUploadRequest_headers c (u : string) (size : Z) (mt : string)
    (req : http.Request) :
  NewUploadRequest c u size mt = (Some req, None) →
  http.Header req
  = <["User-Agent" := [UserAgent c]]> (<["Content-Type" := [mt]]> ∅)
  ∧ http.Header req !! "User-Agent" = Some [UserAgent c]
  ∧ http.Header req !! "Accept" = None
  ∧ http.ContentLength req = size
  ∧ http.ReqBody req = Some http.FileBody.
Proof.
  unfold NewUploadRequest.
  destruct (HasSuffix _ _); [|discriminate]. cbn [negb].
  destruct (URL_Parse _ _) as [u'|]; [|discriminate].
  destruct (http_NewRequest _ _ _) as [r0|] eqn:Hreq; [|discriminate].
  pose proof (http_NewRequest_Header _ _ _ _ Hreq) as Hh.
  pose proof (http_NewRequest_Body _ _ _ _ Hreq) as Hb.
  intros [= <-].
  assert (http.Header
            (http.Header_Set "User-Agent" (UserAgent c)
               (http.Header_Set "Content-Type" mt (http.set_ContentLength size r0)))
          = <["User-Agent" := [UserAgent c]]> (<["Content-Type" := [mt]]> ∅)) as Hmap.
  { cbn [http.Header_Set http.Header http.set_ContentLength]. by rewrite Hh. }
  split_and!; [exact Hmap | | | reflexivity | exact Hb].
  - rewrite Hmap. apply lookup_insert_eq.
  - rewrite Hmap, !lookup_insert_ne by done. apply lookup_empty.
Qed.

Lemma NewClient_exactly_one (baseURL : string) (hc : option http.Client) :
  exactly_one (NewClient baseURL hc).
Proof.
  unfold exactly_one, NewClient. destruct (String.eqb baseURL ""); [right; eauto|].
  destruct (url_Parse baseURL); [left | right]; eauto.
Qed.

Lemma NewRequest_exactly_one c (method urlStr : string) (body : option Value) :
  exactly_one (NewRequest c method urlStr body).
Proof.
  unfold exactly_one, NewRequest. destruct (negb _); [right; eauto|].
  destruct (URL_Parse _ _); [|right; eauto].
  destruct (encode_body body); [|right; eauto].
  destruct (http_NewRequest _ _ _); [left | right]; eauto.
Qed.

Lemma NewUploadRequest_exactly_one c (urlStr : string) (size : Z) (mt : string) :
  exactly_one (NewUploadRequest c urlStr size mt).
Proof.
  unfold exactly_one, NewUploadRequest. destruct (negb _); [right; eauto|].
  destruct (URL_Parse _ _); [|right; eauto].
  destruct (http_NewRequest _ _ _); [left | right]; eauto.
Qed.

(** X2.  The constructors return a value or an error, never both and never
    neither; [parseResponse] always returns an envelope. *)
Theorem constructors_return_value_or_error c (baseURL : string)
    (hc : option http.Client) (method urlStr : string) (body : option Value)
    (size : Z) (mt : string) (r : http.Response) :
  exactly_one (NewClient baseURL hc)
  ∧ exactly_one (NewRequest c method urlStr body)
  ∧ exactly_one (NewUploadRequest c urlStr size mt)
  ∧ is_Some (parseResponse r).1.
Proof.
  split_and!.
  - apply NewClient_exactly_one.
  - apply NewRequest_exactly_one.
  - apply NewUploadRequest_exactly_one.
  - rewrite parseResponse_envelope. eauto.
Qed.

(** X3.  A client whose base path does not end in a slash builds no request:
    both constructors return the error before they look at the relative
    URL.  A client that [NewClient] returned never meets that error: its
    requests are built whenever the URL resolves, the body encodes and
    [http.NewRequest] accepts the result. *)
Theorem trailing_slash_guard c :
  (HasSuffix (url.Path (BaseURL c)) "/" = false →
     ∀ method urlStr body size mt,
       NewRequest c method urlStr body
       = (None, Some (fmt_Errorf "BaseURL must have a trailing slash, but %q does not"
                                 [URL_String (BaseURL c)]))
       ∧ NewUploadRequest c urlStr size mt
         = (None, Some (fmt_Errorf "base URL must have a trailing slash, but %q does not"
                                   [URL_String (BaseURL c)])))
  ∧ (∀ baseURL hc, NewClient baseURL hc = (Some c, None) →
     ∀ method urlStr body u buf r0,
       URL_Parse (BaseURL c) urlStr = Ok u →
       encode_body body = Ok buf →
       http_NewRequest method (URL_String u) buf = Ok r0 →
       is_Some (NewRequest c method urlStr body).1
       ∧ (∀ size mt r1,
            http_NewRequest "POST" (URL_String u) (Some http.FileBody) = Ok r1 →
            is_Some (NewUploadRequest c urlStr size mt).1)).
Proof.
  split.
  - intros Hs method urlStr body size mt.
    unfold NewRequest, NewUploadRequest. by rewrite Hs.
  - intros baseURL hc Hc method urlStr body u buf r0 Hu Hbuf Hr0.
    assert (HasSuffix (url.Path (BaseURL c)) "/" = true) as Hs.
    { unfold NewClient in Hc. destruct (String.eqb baseURL ""); [discriminate|].
      destruct (url_Parse baseURL) as [u0|]; [|discriminate].
      injection Hc as <-. cbn [BaseURL].
      destruct (HasSuffix (url.Path u0) "/") eqn:H0; [done|].
      apply HasSuffix_slash_append. }
    unfold NewRequest, NewUploadRequest. rewrite Hs, Hu, Hbuf, Hr0. cbn [negb].
    split; [eauto|]. intros size mt r1 ->. eauto.
Qed.

(** A request built without a body has none. *)
Lemma NewRequest_no_body c (method urlStr : string) (req : http.Request) :
  NewRequest c method urlStr None = (Some req, None) → http.ReqBody req = None.
Proof.
  unfold NewRequest.
  destruct (HasSuffix _ _); [|discriminate]. cbn [negb encode_body].
  destruct (URL_Parse _ _) as [u|]; [|discriminate].
  destruct (http_NewRequest _ _ _) as [r0|] eqn:Hreq; [|discriminate].
  pose proof (http_NewRequest_Body _ _ _ _ Hreq) as Hb.
  intros [= <-]. destruct (nonempty (UserAgent c)); exact Hb.
Qed.

(** [deleteChartHelper], by the outcome of [NewRequest] and of the
    transport. *)
Lemma deleteChartHelper_run s ctx (u : string) w :
  match NewRequest (client s) "DELETE" u None with
  | (_, Some e) =>
      deleteChartHelper s ctx u w
      = (Val (None, Some (withMessage e "Failed creating delete request")),
         mkWorld (file w) (trace w ++ [EvNewRequest "DELETE" u]))
  | (None, None) =>
      deleteChartHelper s ctx u w
      = (Panic nil_dereference,
         mkWorld (file w) (trace w ++ [EvNewRequest "DELETE" u]))
  | (Some req, None) =>
      let req' := http.WithContext ctx req in
      let x := http.Do (httpClient (client s)) req' "" in
      deleteChartHelper s ctx u w
      = (match http.err x, http.resp x with
         | Some e, _ =>
             Val (None, errors_Wrap
                          (if context.Done ctx then context.Err ctx else Some e)
                          "Failed to do delete request")
         | None, None => Panic nil_dereference
         | None, Some r =>
             Val ((parseResponse r).1,
                  errors_Wrap (parseResponse r).2 "Failed to do delete request")
         end,
         mkWorld (file w)
                 ((trace w ++ [EvNewRequest "DELETE" u]) ++ [EvDo req' ""]))
  end.
Proof.
  unfold deleteChartHelper, Do. run_io.
  destruct (NewRequest _ _ _ _) as [[req|] [e|]] eqn:Hreq; try reflexivity.
  apply NewRequest_no_body in Hreq as Hb.
  unfold payload, after_send. cbn [http.WithContext http.ReqBody].
  rewrite Hb. run_io. cbv zeta.
  destruct (http.err _) as [e|].
  - destruct (context.Done ctx); [destruct (context.Err ctx)|]; by destruct w.
  - destruct (http.resp _) as [r|]; [|by destruct w].
    destruct (parseResponse r) as [resp [e|]]; by destruct w.
Qed.

(** [DeleteChart] on a valid [ChartInfo] is [deleteChartHelper] on the path
    of the specification. *)
Lemma DeleteChart_spec_path s ctx (name version org repo : string) w :
  (org ≠ "" → repo ≠ "") →
  DeleteChart s ctx (mkChartInfo (Some name) (Some version) (Some org) (Some repo)) w
  = deleteChartHelper s ctx (spec_delete_path org repo name version) w.
Proof.
  intros Hvalid. rewrite DeleteChart_defined.
  unfold spec_delete_path, spec_upload_path.
  destruct (decide (org ≠ "")) as [Horg|Horg].
  - pose proof (Hvalid Horg) as Hrepo.
    apply nonempty_true in Horg as ->. apply String.eqb_neq in Hrepo as ->.
    by rewrite !append_assoc.
  - apply dec_stable in Horg. apply nonempty_false in Horg as ->.
    destruct (decide (repo ≠ "")) as [Hrepo|Hrepo].
    + apply nonempty_true in Hrepo as ->. by rewrite !append_assoc.
    + apply dec_stable in Hrepo. by apply nonempty_false in Hrepo as ->.
Qed.

(** X4.  A delete the server answers: [DeleteChart] returns the decoded
    envelope, with no error when the status read through the decoded
    envelope is in 200..299 (the decoder writes into the response the
    envelope embeds, so this is the status as it stands after decoding) and
    else with the error of [parseResponse] under the prefix of the delete
    step; the trace
    gains the request and its sending, with an empty body, and the file
    handle is as before.  When the error field has no ['%'] the text of the
    error is that prefix, a colon and the field. *)
Theorem DeleteChart_answered s ctx (name version org repo : string) w
    (req : http.Request) (r : http.Response) :
  (org ≠ "" → repo ≠ "") →
  let u := spec_delete_path org repo name version in
  let req' := http.WithContext ctx req in
  NewRequest (client s) "DELETE" u None = (Some req, None) →
  http.err (http.Do (httpClient (client s)) req' "") = None →
  http.resp (http.Do (httpClient (client s)) req' "") = Some r →
  DeleteChart s ctx (mkChartInfo (Some name) (Some version) (Some org) (Some repo)) w
  = (Val (Some (envelope r),
          errors_Wrap (status_error r) "Failed to do delete request"),
     mkWorld (file w) (trace w ++ [EvNewRequest "DELETE" u; EvDo req' ""]))
  ∧ (success (http.StatusCode (Response_ (envelope r))) → status_error r = None)
  ∧ (¬ success (http.StatusCode (Response_ (envelope r))) →
     has_byte "%" (Error (envelope r)) = false →
     ∃ e, errors_Wrap (status_error r) "Failed to do delete request" = Some e
          ∧ Error_text e = "Failed to do delete request: " +:+ Error (envelope r)).
Proof.
  intros Hvalid u req' Hreq Herr Hresp. split_and!.
  - rewrite DeleteChart_spec_path by done. fold u.
    pose proof (deleteChartHelper_run s ctx u w) as H.
    rewrite Hreq in H. cbv zeta in H. fold req' in H.
    rewrite H, Herr, Hresp, parseResponse_envelope. cbn [fst snd].
    by rewrite <- app_assoc.
  - intros Hok. unfold status_error. by case_decide.
  - intros Hbad Hplain. unfold status_error. case_decide; [done|].
    rewrite fmt_Errorf_plain by done. eexists. split; reflexivity.
Qed.

End Requests.

(* ===================================================================== *)
(** ** More on the chart operations *)
(* ===================================================================== *)

Lemma length_zeros (n : nat) : String.length (zeros n) = n.
Proof. induction n as [|n IH]; [reflexivity|]. cbn. by rewrite IH. Qed.

Lemma prefix_append (a b : string) : String.prefix a (a +:+ b) = true.
Proof.
  induction a as [|x a IH]; [apply prefix_empty|].
  rewrite append_cons. cbn.
  destruct (ascii_dec x x) as [_|Hne]; [exact IH | by destruct Hne].
Qed.

Section Operations.
Context `{lib : GoLib}.
Implicit Types (s : ChartService) (ctx : context.Context) (f : os.File)
               (tr : list Event) (w : World).

(** X5.  The errors of the two helpers.  [deleteChartHelper] returns no error
    but one wrapped with the step that failed, and no response unless the
    request was sent.  [uploadChartHelper] returns the error of the
    directory check or an error wrapped with one of its three steps.  The
    text of a wrapped error is the step, a colon and the text of the cause. *)
Theorem helper_errors_are_wrapped s ctx (u : string) w
    (resp : option Response) (e : error) :
  ((deleteChartHelper s ctx u w).1 = Val (resp, Some e) →
     ∃ cause,
       (e = withMessage cause "Failed creating delete request" ∧ resp = None)
       ∨ e = withMessage cause "Failed to do delete request")
  ∧ ((uploadChartHelper s ctx u w).1 = Val (resp, Some e) →
     (e = directory_error ∧ resp = None)
     ∨ ∃ cause,
         (e = withMessage cause "Unable to access file" ∧ resp = None)
         ∨ (e = withMessage cause "Failed creating upload request" ∧ resp = None)
         ∨ e = withMessage cause "Failed to do upload request")
  ∧ (∀ cause step, Error_text (withMessage cause step)
                   = step +:+ ": " +:+ Error_text cause).
Proof.
  split_and!; [| |reflexivity].
  - pose proof (deleteChartHelper_run s ctx u w) as H.
    destruct (NewRequest _ _ _ _) as [[req|] [e0|]];
      cbv zeta in H; rewrite H; cbn [fst].
    1,3: intros [= <- <-]; eauto.
    2: discriminate.
    destruct (http.err _) as [e1|]; [|destruct (http.resp _) as [r|]];
      [| |discriminate].
    + destruct (if context.Done ctx then _ else _) as [e2|];
        intros [= <- <-]; eauto.
    + destruct ((parseResponse r).2) as [e2|]; intros [= <- <-]; eauto.
  - destruct w as [f tr]. destruct (os.statErr f) as [e0|] eqn:Hstat.
    { unfold uploadChartHelper. run_io. unfold os.Stat. rewrite Hstat.
      intros [= <- <-]. right. eauto. }
    destruct (os.isDir f) eqn:Hdir.
    { unfold uploadChartHelper. run_io. unfold os.Stat. rewrite Hstat.
      cbn [os.IsDir]. rewrite Hdir. intros [= <- <-]. by left. }
    rewrite uploadChartHelper_run, detectContentType_run by done.
    destruct (os.Read f 512) as [[got [e1|]] f'];
      (match goal with
       | |- context [send_upload ?s ?c ?u ?sz ?mt ?w] =>
           pose proof (send_upload_run s c u sz mt w) as H
       end;
       destruct (NewUploadRequest _ _ _ _) as [[req|] [e2|]];
       cbv zeta in H;
       [ rewrite H; cbn [fst]; intros [= <- <-]; right; eauto
       | destruct H as [_ ->];
         destruct (http.err _) as [e3|]; [|destruct (http.resp _) as [r|]];
         [ destruct (if context.Done ctx then _ else _) as [e4|];
           intros [= <- <-]; right; eauto
         | destruct ((parseResponse r).2) as [e4|]; intros [= <- <-]; right; eauto
         | discriminate ]
       | rewrite H; cbn [fst]; intros [= <- <-]; right; eauto
       | rewrite H; discriminate ]).
Qed.

(** What [deleteChartHelper] does to the state. *)
Lemma deleteChartHelper_frame s ctx (u : string) w :
  file (deleteChartHelper s ctx u w).2 = file w
  ∧ ∃ rest, trace (deleteChartHelper s ctx u w).2 = (trace w ++ rest)%list
            ∧ (length rest ≤ 2)%nat
            ∧ Forall (λ e, touches_file e = false) rest.
Proof.
  pose proof (deleteChartHelper_run s ctx u w) as H.
  destruct (NewRequest _ _ _ _) as [[req|] [e0|]]; cbv zeta in H; rewrite H;
    cbn [snd file trace]; (split; [reflexivity|]).
  2: rewrite <- app_assoc.
  all: eexists; split; [reflexivity|]; split; [cbn; lia|];
    repeat constructor.
Qed.

(** X6.  [DeleteChart] never touches the file handle: whatever the [ChartInfo],
    a panic included, the handle is as before, and the trace gains at most
    the building and the sending of one request, no call on the file. *)
Theorem DeleteChart_leaves_file s ctx (c : ChartInfo) w :
  file (DeleteChart s ctx c w).2 = file w
  ∧ ∃ rest, trace (DeleteChart s ctx c w).2 = (trace w ++ rest)%list
            ∧ (length rest ≤ 2)%nat
            ∧ Forall (λ e, touches_file e = false) rest.
Proof.
  assert (∀ w' : World, w' = w →
            file w' = file w
            ∧ ∃ rest, trace w' = (trace w ++ rest)%list
                      ∧ (length rest ≤ 2)%nat
                      ∧ Forall (λ e, touches_file e = false) rest) as Hsame.
  { intros w' ->. split; [reflexivity|]. exists []. rewrite app_nil_r.
    split_and!; [reflexivity | cbn; lia | constructor]. }
  destruct c as [[name|] [version|] [org|] [repo|]];
    try (apply Hsame; reflexivity).
  - rewrite DeleteChart_defined.
    destruct (nonempty org); [destruct (String.eqb repo "")|destruct (nonempty repo)];
      try apply deleteChartHelper_frame.
    by apply Hsame.
  - apply Hsame. unfold DeleteChart. run. cbn [Name Version Org Repo].
    by destruct (nonempty org).
Qed.

(** X7.  Over a transport that returns a response or an error, the operations
    do not panic once the pointers they dereference are set: [DeleteChart]
    with four pointers to strings, [UploadChart] with Org and Repo. *)
Theorem operations_do_not_panic s ctx w :
  well_behaved (httpClient (client s)) →
  (∀ name version org repo : string,
     ∃ res w', DeleteChart s ctx (mkChartInfo (Some name) (Some version)
                                            (Some org) (Some repo)) w
               = (Val res, w'))
  ∧ (∀ (name version : option string) (org repo : string),
     ∃ res w', UploadChart s ctx (mkChartInfo name version (Some org) (Some repo)) w
               = (Val res, w')).
Proof.
  intros Hwb.
  assert (∀ u w0, ∃ res w', deleteChartHelper s ctx u w0 = (Val res, w')) as Hdel.
  { intros u w0. pose proof (deleteChartHelper_run s ctx u w0) as H.
    pose proof (NewRequest_exactly_one (client s) "DELETE" u None) as Hone.
    destruct (NewRequest _ _ _ _) as [[req|] [e0|]]; cbv zeta in H;
      try (rewrite H; eauto; fail).
    - rewrite H.
      destruct (Hwb (http.WithContext ctx req) "") as [[e He]|[r Hr]].
      + rewrite He. eauto.
      + rewrite Hr. destruct (http.err _); eauto.
    - destruct Hone as [[[? [=]] _]|[_ [? [=]]]]. }
  assert (∀ u size mt w0, ∃ res w',
            send_upload s ctx u size mt w0 = (Val res, w')) as Hsend.
  { intros u size mt w0. pose proof (send_upload_run s ctx u size mt w0) as H.
    pose proof (NewUploadRequest_exactly_one (client s) u size mt) as Hone.
    destruct (NewUploadRequest _ _ _ _) as [[req|] [e0|]]; cbv zeta in H;
      try (rewrite H; eauto; fail).
    - destruct (send_upload _ _ _ _ _ _) as [res w']. cbn [fst snd] in H.
      destruct H as [_ ->].
      destruct (Hwb (http.WithContext ctx req)
                    (payload (http.WithContext ctx req) (file w0)))
        as [[e He]|[r Hr]].
      + rewrite He. eauto.
      + rewrite Hr. destruct (http.err _); eauto.
    - destruct Hone as [[[? [=]] _]|[_ [? [=]]]]. }
  assert (∀ u w0, ∃ res w', uploadChartHelper s ctx u w0 = (Val res, w')) as Hup.
  { intros u [f tr]. destruct (os.statErr f) as [e0|] eqn:Hstat.
    { unfold uploadChartHelper. run_io. unfold os.Stat. rewrite Hstat. eauto. }
    destruct (os.isDir f) eqn:Hdir.
    { unfold uploadChartHelper. run_io. unfold os.Stat. rewrite Hstat.
      cbn [os.IsDir]. rewrite Hdir. eauto. }
    rewrite uploadChartHelper_run, detectContentType_run by done.
    destruct (os.Read f 512) as [[got [e1|]] f']; apply Hsend. }
  split.
  - intros name version org repo. rewrite DeleteChart_defined.
    destruct (nonempty org); [destruct (String.eqb repo "")|destruct (nonempty repo)];
      eauto.
  - intros name version org repo. rewrite UploadChart_defined.
    destruct (nonempty org); [destruct (String.eqb repo "")|destruct (nonempty repo)];
      eauto.
Qed.

(** X8.  [ChartInfo.String] on four pointers to strings: [org/repo/name-version]
    when org is set, [repo/name-version] when only repo is, [name-version]
    otherwise.  Nothing is checked here: an org without a repo prints with
    an empty segment between two slashes. *)
Theorem ChartInfo_String_shapes (name version org repo : string) w :
  ChartInfo_String (mkChartInfo (Some name) (Some version) (Some org) (Some repo)) w
  = (Val (if decide (org ≠ "")
          then org +:+ "/" +:+ repo +:+ "/" +:+ name +:+ "-" +:+ version
          else if decide (repo ≠ "")
               then repo +:+ "/" +:+ name +:+ "-" +:+ version
               else name +:+ "-" +:+ version), w)
  ∧ (org ≠ "" →
     ChartInfo_String (mkChartInfo (Some name) (Some version) (Some org) (Some "")) w
     = (Val (org +:+ "//" +:+ name +:+ "-" +:+ version), w)).
Proof.
  assert (Sprintf "%s-%s" [name; version] = name +:+ "-" +:+ version) as Hs
    by (unfold Sprintf; cbn; by rewrite append_empty_r).
  assert (∀ a b c, Sprintf "%s/%s/%s" [a; b; c] = a +:+ "/" +:+ b +:+ "/" +:+ c)
    as H3 by (intros; unfold Sprintf; cbn; by rewrite append_empty_r).
  assert (∀ a b, Sprintf "%s/%s" [a; b] = a +:+ "/" +:+ b)
    as H2 by (intros; unfold Sprintf; cbn; by rewrite append_empty_r).
  split.
  - unfold ChartInfo_String. run. cbn [Name Version Org Repo].
    rewrite Hs, H3, H2.
    destruct (decide (org ≠ "")) as [Horg|Horg].
    + by apply nonempty_true in Horg as ->.
    + apply dec_stable in Horg. apply nonempty_false in Horg as ->.
      destruct (decide (repo ≠ "")) as [Hrepo|Hrepo].
      * by apply nonempty_true in Hrepo as ->.
      * apply dec_stable in Hrepo. by apply nonempty_false in Hrepo as ->.
  - intros Horg%nonempty_true. unfold ChartInfo_String. run.
    cbn [Name Version Org Repo]. by rewrite Hs, H3, Horg.
Qed.

(** X9.  A sniff whose read succeeds, wherever the handle stands: the
    detector is given the whole buffer of 512 bytes, the bytes read followed
    by zero bytes.  When the seek that follows succeeds, the handle is set
    to offset 0, not to where it stood; when it fails (a handle that cannot
    seek) the failure is dropped, no error is returned and the handle stays
    past the bytes read. *)
Theorem detectContentType_sniffs_padded_buffer f tr (got : string) (f' : os.File) :
  os.Read f 512 = ((got, None), f') →
  ∃ buffer,
    (detectContentType (mkWorld f tr)).1
    = Val (http_DetectContentType buffer, None)
    ∧ trace (detectContentType (mkWorld f tr)).2
      = (tr ++ [EvRead 512 got; EvSeek 0 0])%list
    ∧ buffer = got +:+ zeros (512 - String.length got)
    ∧ String.length buffer = 512%nat
    ∧ String.prefix got buffer = true
    ∧ got = String.substring (os.offset f) 512 (os.data f)
    ∧ got ≠ ""
    ∧ (os.seekErr f = None →
       file (detectContentType (mkWorld f tr)).2 = os.set_offset 0 f)
    ∧ (∀ e, os.seekErr f = Some e →
       file (detectContentType (mkWorld f tr)).2
       = os.set_offset (os.offset f + String.length got) f).
Proof.
  intros HR. exists (filled 512 got).
  apply Read_success in HR as Hok. destruct Hok as [Hgot ->].
  assert (String.length got ≤ 512)%nat as Hlen
    by (rewrite Hgot; apply substring_length_le).
  rewrite detectContentType_run, HR. cbn [fst snd file trace].
  split_and!.
  - reflexivity.
  - by rewrite <- app_assoc.
  - reflexivity.
  - unfold filled. rewrite length_append, length_zeros. lia.
  - apply prefix_append.
  - exact Hgot.
  - intros ->. unfold os.Read in HR. destruct (os.readErr f); [discriminate|].
    destruct (os.isDir f); [discriminate|].
    rewrite <- Hgot in HR. cbn in HR. discriminate.
  - intros Hseek. rewrite Seek_start. cbn [os.seekErr os.set_offset].
    by rewrite Hseek.
  - intros e Hseek. rewrite Seek_start. cbn [os.seekErr os.set_offset].
    by rewrite Hseek.
Qed.


End Operations.

(* ===================================================================== *)
(** ** The commands of curator *)
(* ===================================================================== *)

Section Curator.
Context `{lib : GoLib} `{sys : Platform}.
Implicit Types (c : cli.Context) (t : list Call) (ctx : context.Context).

Lemma Sprintf_line (text : string) : Sprintf ("%s" +:+ nl) [text] = text +:+ nl.
Proof. reflexivity. Qed.

(** [initConfig], by its two checks. *)
Lemma initConfig_run c :
  curator.initConfig c =
    let server := cli.GlobalString c "server" in
    let org := cli.GlobalString c "org" in
    let repo := cli.GlobalString c "repo" in
    if nonempty org && String.eqb repo ""
    then (None, Some (fundamental "Repo required if Org is set"))
    else match NewClient server None with
         | (_, Some e) =>
             (None, Some (withMessage e
                (Sprintf "Could not create ChartMuseum client (server: %q)" [server])))
         | (cl, None) => (Some (curator.mkConfig server org repo cl), None)
         end.
Proof.
  unfold curator.initConfig. cbn [curator.Org curator.Repo curator.Server].
  cbv zeta. destruct (_ && _); [reflexivity|].
  destruct (NewClient _ _) as [cl [e|]]; reflexivity.
Qed.

(** A client [NewClient] returned, field by field. *)
Lemma NewClient_built (baseURL : string) (hc : option http.Client) (cl : Client) :
  NewClient baseURL hc = (Some cl, None) →
  ∃ u, url_Parse baseURL = Ok u
       ∧ cl = mkClient (if HasSuffix (url.Path u) "/" then u
                        else url.set_Path (url.Path u +:+ "/") u)
                       userAgent (default http_DefaultClient hc).
Proof.
  intros Hcl. destruct (String.eqb_spec baseURL "") as [->|Hne].
  { discriminate Hcl. }
  destruct (url_Parse baseURL) as [u|e] eqn:Hparse.
  - rewrite (NewClient_parsed baseURL hc u Hne Hparse) in Hcl.
    injection Hcl as <-. eauto.
  - unfold NewClient in Hcl. apply String.eqb_neq in Hne.
    rewrite Hne, Hparse in Hcl. discriminate.
Qed.

(** X11.  The order of the checks of [initConfig]: an org without a repo is
    rejected whatever the server flag holds, also when it is empty or does
    not parse; only then is the client built, and its error comes back
    wrapped.  [initConfig] returns a configuration or an error, never both
    and never neither. *)
Theorem initConfig_checks c :
  let server := cli.GlobalString c "server" in
  let org := cli.GlobalString c "org" in
  let repo := cli.GlobalString c "repo" in
  (org ≠ "" → repo = "" →
     curator.initConfig c = (None, Some (fundamental "Repo required if Org is set")))
  ∧ ((org ≠ "" → repo ≠ "") →
     ∀ e, (NewClient server None).2 = Some e →
       ∃ msg, curator.initConfig c = (None, Some (withMessage e msg))
              ∧ Error_text (withMessage e msg) = msg +:+ ": " +:+ Error_text e)
  ∧ ((org ≠ "" → repo ≠ "") →
     ∀ cl, NewClient server None = (Some cl, None) →
       curator.initConfig c = (Some (curator.mkConfig server org repo (Some cl)), None))
  ∧ exactly_one (curator.initConfig c).
Proof.
  cbv zeta. rewrite initConfig_run. cbv zeta.
  set (server := cli.GlobalString c "server").
  set (org := cli.GlobalString c "org").
  set (repo := cli.GlobalString c "repo").
  assert ((org ≠ "" → repo ≠ "") → nonempty org && String.eqb repo "" = false)
    as Hpass.
  { intros Hvalid. destruct (nonempty org) eqn:Horg; [|reflexivity].
    apply nonempty_true in Horg. by apply Hvalid, String.eqb_neq in Horg as ->. }
  split_and!.
  - intros Horg%nonempty_true ->. by rewrite Horg.
  - intros Hvalid e He. rewrite (Hpass Hvalid).
    destruct (NewClient server None) as [cl [e'|]]; cbn in He; [|discriminate].
    injection He as ->. eexists. split; reflexivity.
  - intros Hvalid cl ->. by rewrite (Hpass Hvalid).
  - destruct (_ && _); [right; eauto|].
    pose proof (NewClient_exactly_one server None) as Hone.
    destruct (NewClient server None) as [cl [e|]].
    + right; eauto.
    + destruct Hone as [[Hcl _]|[_ [? [=]]]]. left. eauto.
Qed.

(** X12.  A configuration [initConfig] returns can be used as it is: repo is set
    when org is, and the client is there, as [NewClient] builds it over the
    default transport, with a base path that ends in a slash. *)
Theorem initConfig_config_is_usable c (config : curator.Config) :
  curator.initConfig c = (Some config, None) →
  (curator.Org config ≠ "" → curator.Repo config ≠ "")
  ∧ curator.Server config = cli.GlobalString c "server"
  ∧ curator.Org config = cli.GlobalString c "org"
  ∧ curator.Repo config = cli.GlobalString c "repo"
  ∧ ∃ cl, curator.Client_ config = Some cl
          ∧ NewClient (curator.Server config) None = (Some cl, None)
          ∧ UserAgent cl = "go-chartmuseum"
          ∧ httpClient cl = http_DefaultClient
          ∧ HasSuffix (url.Path (BaseURL cl)) "/" = true.
Proof.
  rewrite initConfig_run. cbv zeta.
  destruct (nonempty _ && _) eqn:Hcheck; [discriminate|].
  pose proof (NewClient_exactly_one (cli.GlobalString c "server") None) as Hone.
  destruct (NewClient _ _) as [cl [e|]] eqn:Hcl; [discriminate|].
  destruct Hone as [[[cl' Hsome] _]|[_ [? [=]]]]. cbn in Hsome. subst cl.
  intros [= <-]. cbn [curator.Org curator.Repo curator.Server curator.Client_].
  split_and!; try reflexivity.
  - intros Horg%nonempty_true. rewrite Horg in Hcheck. cbn in Hcheck.
    by apply String.eqb_neq.
  - exists cl'. split_and!; [reflexivity | exact Hcl | ..].
    + by apply NewClient_UserAgent in Hcl.
    + by apply NewClient_built in Hcl as (u0 & _ & ->).
    + apply NewClient_built in Hcl as (u0 & _ & ->).
      cbn [BaseURL]. destruct (HasSuffix (url.Path u0) "/") eqn:H0; [done|].
      apply HasSuffix_slash_append.
Qed.

(** X13.  When [initConfig] fails, both commands print the error on a line of its
    own, show the help of the subcommand and return the error: nothing
    else is called. *)
Theorem commands_stop_on_config_error c t (config : option curator.Config)
    (e : error) :
  curator.initConfig c = (config, Some e) →
  curator.pushCommand c t
  = (Val (Some e), (t ++ [Printf (Error_text e +:+ nl); ShowSubcommandHelp])%list)
  ∧ curator.deleteCommand c t
    = (Val (Some e), (t ++ [Printf (Error_text e +:+ nl); ShowSubcommandHelp])%list).
Proof.
  intros Hinit. unfold curator.pushCommand, curator.deleteCommand.
  rewrite Hinit. run_p. rewrite Sprintf_line.
  by rewrite <- !app_assoc.
Qed.

(** Over a transport that keeps its contract and under a context that is
    not done, the helpers return, and with no error there is a response. *)
Lemma deleteChartHelper_shape (s : ChartService) ctx (u : string) (w : World) :
  well_behaved (httpClient (client s)) → context.Done ctx = false →
  ∃ resp err w', deleteChartHelper s ctx u w = (Val (resp, err), w')
                 ∧ (err = None → is_Some resp).
Proof.
  intros Hwb Hctx. pose proof (deleteChartHelper_run s ctx u w) as H.
  pose proof (NewRequest_exactly_one (client s) "DELETE" u None) as Hone.
  destruct (NewRequest _ _ _ _) as [[req|] [e0|]]; cbv zeta in H.
  1,3: rewrite H; do 3 eexists; split; [reflexivity | discriminate].
  2: destruct Hone as [[[? [=]] _]|[_ [? [=]]]].
  rewrite H, Hctx.
  destruct (Hwb (http.WithContext ctx req) "") as [[e He]|[r Hr]].
  - rewrite He. do 3 eexists; split; [reflexivity | discriminate].
  - rewrite Hr. destruct (http.err _).
    + do 3 eexists; split; [reflexivity | discriminate].
    + do 3 eexists; split; [reflexivity|]. intros _.
      rewrite parseResponse_envelope. eauto.
Qed.

Lemma uploadChartHelper_shape (s : ChartService) ctx (u : string) (w : World) :
  well_behaved (httpClient (client s)) → context.Done ctx = false →
  ∃ resp err w', uploadChartHelper s ctx u w = (Val (resp, err), w')
                 ∧ (err = None → is_Some resp).
Proof.
  intros Hwb Hctx.
  assert (∀ size mt w0, ∃ resp err w',
            send_upload s ctx u size mt w0 = (Val (resp, err), w')
            ∧ (err = None → is_Some resp)) as Hsend.
  { intros size mt w0. pose proof (send_upload_run s ctx u size mt w0) as H.
    pose proof (NewUploadRequest_exactly_one (client s) u size mt) as Hone.
    destruct (NewUploadRequest _ _ _ _) as [[req|] [e0|]]; cbv zeta in H.
    1,3: rewrite H; do 3 eexists; split; [reflexivity | discriminate].
    2: destruct Hone as [[[? [=]] _]|[_ [? [=]]]].
    destruct (send_upload _ _ _ _ _ _) as [res w']. cbn [fst snd] in H.
    destruct H as [_ ->]. rewrite Hctx.
    destruct (Hwb (http.WithContext ctx req)
                  (payload (http.WithContext ctx req) (file w0)))
      as [[e He]|[r Hr]].
    - rewrite He. do 3 eexists; split; [reflexivity | discriminate].
    - rewrite Hr. destruct (http.err _).
      + do 3 eexists; split; [reflexivity | discriminate].
      + do 3 eexists; split; [reflexivity|]. intros _.
        rewrite parseResponse_envelope. eauto. }
  destruct w as [f tr]. destruct (os.statErr f) as [e0|] eqn:Hstat.
  { unfold uploadChartHelper. run_io. unfold os.Stat. rewrite Hstat.
    do 3 eexists; split; [reflexivity | discriminate]. }
  destruct (os.isDir f) eqn:Hdir.
  { unfold uploadChartHelper. run_io. unfold os.Stat. rewrite Hstat.
    cbn [os.IsDir]. rewrite Hdir.
    do 3 eexists; split; [reflexivity | discriminate]. }
  rewrite uploadChartHelper_run, detectContentType_run by done.
  destruct (os.Read f 512) as [[got [e1|]] f']; apply Hsend.
Qed.

(** A configuration [initConfig] returned. *)
Lemma initConfig_success c (config : curator.Config) :
  curator.initConfig c = (Some config, None) →
  (cli.GlobalString c "org" ≠ "" → cli.GlobalString c "repo" ≠ "")
  ∧ ∃ cl, config = curator.mkConfig (cli.GlobalString c "server")
                     (cli.GlobalString c "org") (cli.GlobalString c "repo") (Some cl)
          ∧ httpClient cl = http_DefaultClient.
Proof.
  rewrite initConfig_run. cbv zeta.
  destruct (nonempty _ && _) eqn:Hcheck; [discriminate|].
  pose proof (NewClient_exactly_one (cli.GlobalString c "server") None) as Hone.
  destruct (NewClient _ _) as [cl [e|]] eqn:Hcl; [discriminate|].
  destruct Hone as [[[cl' Hsome] _]|[_ [? [=]]]]. cbn in Hsome. subst cl.
  intros [= <-]. split.
  - intros Horg%nonempty_true. rewrite Horg in Hcheck. cbn in Hcheck.
    by apply String.eqb_neq.
  - exists cl'. split; [reflexivity|].
    by apply NewClient_built in Hcl as (u0 & _ & ->).
Qed.

(** X14.  [deleteCommand] after a good configuration, over a default transport
    that keeps its contract: the library is called once and goes straight
    to the request for the path of the scope, name and version (its own
    org/repo check cannot fail, no pointer is [nil]); one line is printed;
    the command returns [nil], also when the delete failed. *)
Theorem deleteCommand_reports_and_returns_nil c t (config : curator.Config) :
  curator.initConfig c = (Some config, None) →
  well_behaved http_DefaultClient →
  ∃ cl line,
    curator.Client_ config = Some cl
    ∧ curator.deleteCommand c t
      = (Val None,
         (t ++ [Library (trace (deleteChartHelper (mkChartService cl)
                                  context.Background
                                  (spec_delete_path (cli.GlobalString c "org")
                                     (cli.GlobalString c "repo")
                                     (cli.First (cli.Args c))
                                     (cli.Get (cli.Args c) 1))
                                  (mkWorld no_file [])).2);
                Printf line])%list).
Proof.
  intros Hinit Hwb.
  destruct (initConfig_success c config Hinit) as (Hvalid & cl & -> & Hcl).
  exists cl. unfold curator.deleteCommand. rewrite Hinit. run_p.
  cbn [curator.Client_ curator.Org curator.Repo curator.Server].
  rewrite DeleteChart_spec_path by done.
  destruct (deleteChartHelper_shape (mkChartService cl) context.Background
              (spec_delete_path (cli.GlobalString c "org")
                 (cli.GlobalString c "repo") (cli.First (cli.Args c))
                 (cli.Get (cli.Args c) 1)) (mkWorld no_file []))
    as (resp & err & w' & -> & Hresp);
    [cbn [client]; by rewrite Hcl | reflexivity |].
  cbn [snd]. destruct err as [e|].
  - eexists. by rewrite <- !app_assoc.
  - destruct (Hresp eq_refl) as [r ->].
    destruct (Deleted r); eexists; by rewrite <- !app_assoc.
Qed.

Lemma UploadChart_spec_path (s : ChartService) ctx (name version : option string)
    (org repo : string) (w : World) :
  (org ≠ "" → repo ≠ "") →
  UploadChart s ctx (mkChartInfo name version (Some org) (Some repo)) w
  = uploadChartHelper s ctx (spec_upload_path org repo) w.
Proof.
  intros Hvalid. rewrite UploadChart_defined. unfold spec_upload_path.
  destruct (decide (org ≠ "")) as [Horg|Horg].
  - pose proof (Hvalid Horg) as Hrepo.
    apply nonempty_true in Horg as ->. by apply String.eqb_neq in Hrepo as ->.
  - apply dec_stable in Horg. apply nonempty_false in Horg as ->.
    destruct (decide (repo ≠ "")) as [Hrepo|Hrepo].
    + by apply nonempty_true in Hrepo as ->.
    + apply dec_stable in Hrepo. by apply nonempty_false in Hrepo as ->.
Qed.

(** The calls of [packageAndUpload] once the temporary directory exists:
    what follows [TempDir] and [LoadDir], up to the deferred removal. *)
Lemma packageAndUpload_calls ctx (config : option curator.Config)
    (chart tmp : string) t :
  ioutil_TempDir "" "curator-" = Ok tmp →
  ∃ calls,
    (curator.packageAndUpload ctx config chart t).2
    = (t ++ TempDir "" "curator-" :: LoadDir chart :: calls ++ [RemoveAll tmp])%list
    ∧ Forall (λ call, ∀ path, call ≠ RemoveAll path) calls.
Proof.
  intros Htmp. unfold curator.packageAndUpload. run_p. rewrite Htmp.
  destruct (chartutil_LoadDir chart) as [ch|e].
  2: { exists []. cbn [snd]. split; [by rewrite <- !app_assoc | constructor]. }
  destruct (chartutil_Save ch tmp) as [pkg|e].
  2: { exists [Save tmp]. cbn [snd].
       split; [by rewrite <- !app_assoc | by repeat constructor]. }
  destruct (os_Open pkg) as [f|e].
  2: { exists [Save tmp; Open pkg]. cbn [snd].
       split; [by rewrite <- !app_assoc | by repeat constructor]. }
  destruct (chartutil.Metadata_ ch) as [md|].
  2: { exists [Save tmp; Open pkg]. cbn [snd].
       split; [by rewrite <- !app_assoc | by repeat constructor]. }
  destruct config as [config|].
  2: { exists [Save tmp; Open pkg]. cbn [snd].
       split; [by rewrite <- !app_assoc | by repeat constructor]. }
  destruct (curator.Client_ config) as [cl|].
  2: { exists [Save tmp; Open pkg]. cbn [snd].
       split; [by rewrite <- !app_assoc | by repeat constructor]. }
  destruct (UploadChart _ _ _ _) as [r w].
  exists [Save tmp; Open pkg; Library (trace w)]. cbn [snd].
  split; [by rewrite <- !app_assoc | by repeat constructor].
Qed.

(** X15.  The temporary directory of [packageAndUpload].  When it cannot be
    made, the error comes back wrapped and nothing is removed.  Once it is
    made, its removal is the last call on every path, whether loading,
    packaging, opening or the upload fails or panics, and it is the only
    removal. *)
Theorem packageAndUpload_removes_temp_dir ctx (config : option curator.Config)
    (chart : string) t :
  (∀ e, ioutil_TempDir "" "curator-" = Err e →
     curator.packageAndUpload ctx config chart t
     = (Val (None, Some (withMessage e "Error while preparing temp Dir")),
        (t ++ [TempDir "" "curator-"])%list))
  ∧ (∀ tmp, ioutil_TempDir "" "curator-" = Ok tmp →
     ∃ calls,
       (curator.packageAndUpload ctx config chart t).2
       = (t ++ TempDir "" "curator-" :: LoadDir chart :: calls
            ++ [RemoveAll tmp])%list
       ∧ Forall (λ call, ∀ path, call ≠ RemoveAll path) calls).
Proof.
  split.
  - intros e Htmp. unfold curator.packageAndUpload. run_p. by rewrite Htmp.
  - intros tmp Htmp. by apply packageAndUpload_calls.
Qed.

(** [packageAndUpload] with a configuration of [initConfig], a chart whose
    metadata is there and a default transport that keeps its contract: it
    returns, and with no error there is a response. *)
Lemma packageAndUpload_shape (config : curator.Config) (cl : Client)
    (chart : string) t :
  curator.Client_ config = Some cl →
  well_behaved (httpClient cl) →
  (∀ ch, chartutil_LoadDir chart = Ok ch → is_Some (chartutil.Metadata_ ch)) →
  ∃ resp err t',
    curator.packageAndUpload context.Background (Some config) chart t
    = (Val (resp, err), t')
    ∧ (err = None → is_Some resp).
Proof.
  intros Hcl Hwb Hmd. unfold curator.packageAndUpload. run_p.
  destruct (ioutil_TempDir "" "curator-") as [tmp|e].
  2: { do 3 eexists; split; [reflexivity | discriminate]. }
  destruct (chartutil_LoadDir chart) as [ch|e] eqn:Hload.
  2: { do 3 eexists; split; [reflexivity | discriminate]. }
  destruct (Hmd ch eq_refl) as [md ->].
  destruct (chartutil_Save ch tmp) as [pkg|e].
  2: { do 3 eexists; split; [reflexivity | discriminate]. }
  destruct (os_Open pkg) as [f|e].
  2: { do 3 eexists; split; [reflexivity | discriminate]. }
  rewrite Hcl. rewrite UploadChart_defined.
  assert (∀ u, ∃ resp err w',
            uploadChartHelper (mkChartService cl) context.Background u
                              (mkWorld f []) = (Val (resp, err), w')
            ∧ (err = None → is_Some resp)) as Hup
    by (intros u; by apply uploadChartHelper_shape).
  destruct (nonempty (curator.Org config));
    [destruct (String.eqb (curator.Repo config) "")
    |destruct (nonempty (curator.Repo config))].
  1: do 3 eexists; split; [reflexivity | discriminate].
  all: match goal with
       | |- context [uploadChartHelper ?s ?c ?u ?w] =>
           destruct (Hup u) as (resp & err & w' & -> & Hresp)
       end; do 3 eexists; split; [reflexivity | exact Hresp].
Qed.

(** X16.  [pushCommand] on a path that is no chart directory: it returns what
    [errors.Wrapf] makes of the validator's error and does nothing else, no
    temporary directory and no line printed.  When the validator reports no
    error with its verdict, the command returns [nil]. *)
Theorem pushCommand_invalid_chart_dir c t (config : curator.Config)
    (err : option error) :
  curator.initConfig c = (Some config, None) →
  chartutil_IsChartDir (cli.First (cli.Args c)) = (false, err) →
  curator.pushCommand c t
  = (Val (curator.errors_Wrapf err "Error validating chart path: %q"
                               [cli.First (cli.Args c)]),
     (t ++ [IsChartDir (cli.First (cli.Args c))])%list)
  ∧ (err = None → (curator.pushCommand c t).1 = Val None)
  ∧ (∀ e, err = Some e →
       ∃ msg, (curator.pushCommand c t).1 = Val (Some (withMessage e msg))).
Proof.
  intros Hinit Hdir.
  assert (curator.pushCommand c t
          = (Val (curator.errors_Wrapf err "Error validating chart path: %q"
                                       [cli.First (cli.Args c)]),
             (t ++ [IsChartDir (cli.First (cli.Args c))])%list)) as Hrun.
  { unfold curator.pushCommand. rewrite Hinit. run_p. by rewrite Hdir. }
  rewrite Hrun. split_and!; [reflexivity | by intros -> |].
  intros e ->. eexists. reflexivity.
Qed.

(** X17.  [pushCommand] on a chart directory, after a good configuration, with
    metadata in the chart and a default transport that keeps its contract:
    whatever [packageAndUpload] returns, an error included, the command
    prints one line after it and returns [nil]. *)
Theorem pushCommand_reports_and_returns_nil c t (config : curator.Config)
    (e0 : option error) :
  curator.initConfig c = (Some config, None) →
  chartutil_IsChartDir (cli.First (cli.Args c)) = (true, e0) →
  well_behaved http_DefaultClient →
  (∀ ch, chartutil_LoadDir (cli.First (cli.Args c)) = Ok ch →
         is_Some (chartutil.Metadata_ ch)) →
  ∃ line,
    curator.pushCommand c t
    = (Val None,
       ((curator.packageAndUpload context.Background (Some config)
           (cli.First (cli.Args c))
           (t ++ [IsChartDir (cli.First (cli.Args c))])).2
        ++ [Printf line])%list).
Proof.
  intros Hinit Hdir Hwb Hmd.
  destruct (initConfig_success c config Hinit) as (Hvalid & cl & Hconfig & Hcl).
  unfold curator.pushCommand. rewrite Hinit. run_p. rewrite Hdir. cbn [negb].
  destruct (packageAndUpload_shape config cl (cli.First (cli.Args c))
              (t ++ [IsChartDir (cli.First (cli.Args c))]))
    as (resp & err & t' & Hrun & Hresp);
    [by rewrite Hconfig | by rewrite Hcl | exact Hmd |].
  rewrite Hrun. cbn [snd]. destruct err as [e|].
  - eexists. reflexivity.
  - destruct (Hresp eq_refl) as [r ->].
    destruct (Saved r); eexists; reflexivity.
Qed.

(** X18.  [packageAndUpload] when every collaborator succeeds: the calls are, in
    this order, [TempDir], [LoadDir], [Save] into the temporary directory,
    [Open] of the archive [Save] returned, one call of the library and the
    removal of the directory.  The library is given the handle just opened
    and goes to the upload helper with the path of the configured scope;
    what it returns is what [packageAndUpload] returns. *)
Theorem packageAndUpload_uploads_package ctx (config : curator.Config)
    (cl : Client) (chart tmp pkg : string) (ch : chartutil.Chart)
    (md : chartutil.Metadata) (f : os.File) t :
  ioutil_TempDir "" "curator-" = Ok tmp →
  chartutil_LoadDir chart = Ok ch →
  chartutil.Metadata_ ch = Some md →
  chartutil_Save ch tmp = Ok pkg →
  os_Open pkg = Ok f →
  curator.Client_ config = Some cl →
  (curator.Org config ≠ "" → curator.Repo config ≠ "") →
  let upload :=
    uploadChartHelper (mkChartService cl) ctx
      (spec_upload_path (curator.Org config) (curator.Repo config))
      (mkWorld f []) in
  curator.packageAndUpload ctx (Some config) chart t
  = (upload.1,
     (t ++ [TempDir "" "curator-"; LoadDir chart; Save tmp; Open pkg;
            Library (trace upload.2); RemoveAll tmp])%list).
Proof.
  intros Htmp Hload Hmd Hsave Hopen Hcl Hvalid upload.
  unfold curator.packageAndUpload. run_p.
  rewrite Htmp, Hload, Hsave, Hopen, Hmd, Hcl.
  rewrite UploadChart_spec_path by done. fold upload.
  destruct upload as [r w]. cbn [fst snd]. by rewrite <- !app_assoc.
Qed.

End Curator.

(* ===================================================================== *)
(** ** The further theorems on concrete inputs *)
(* ===================================================================== *)

Import MoreInputs.
#[local] Existing Instance SamplePlatform.sys.

(** X1 on the inputs of the examples. *)
Lemma NewUploadRequest_headers_witness :
  ∃ req,
    NewUploadRequest (lib := Sample.lib) (anonymous Sample.unreachable)
                     "api/charts" 22 "application/x-gzip" = (Some req, None)
    ∧ http.Header req !! "User-Agent" = Some [""]
    ∧ http.Header req !! "Accept" = None
    ∧ http.ContentLength req = 22.
Proof.
  eexists. split; [vm_compute; reflexivity|].
  match goal with
  | |- context [http.Header ?r] =>
      destruct (NewUploadRequest_headers (lib := Sample.lib)
                  (anonymous Sample.unreachable) "api/charts" 22
                  "application/x-gzip" r)
        as (_ & Hua & Hacc & Hlen & _)
  end; [vm_compute; reflexivity|].
  split_and!; [exact Hua | exact Hacc | exact Hlen].
Defined.

(** X3 on the inputs of the examples. *)
Lemma trailing_slash_guard_witness :
  HasSuffix (url.Path (BaseURL (slashless Sample.unreachable))) "/" = false
  ∧ (NewRequest (lib := Sample.lib) (slashless Sample.unreachable)
                "DELETE" "api/charts/demo/1.0.0" None).1 = None
  ∧ ∃ c, NewClient (lib := Sample.lib) "http://localhost:8080/museum" None
         = (Some c, None)
         ∧ is_Some (NewRequest (lib := Sample.lib) c
                               "DELETE" "api/charts/demo/1.0.0" None).1.
Proof.
  assert (HasSuffix (url.Path (BaseURL (slashless Sample.unreachable))) "/" = false)
    as Hs by reflexivity.
  split; [exact Hs|]. split.
  - destruct (trailing_slash_guard (lib := Sample.lib)
                (slashless Sample.unreachable)) as [Hguard _].
    destruct (Hguard Hs "DELETE" "api/charts/demo/1.0.0" None 0 "") as [-> _].
    reflexivity.
  - destruct (NewClient (lib := Sample.lib) "http://localhost:8080/museum" None)
      as [[c|] [e|]] eqn:Hc; try (vm_compute in Hc; discriminate).
    exists c. split; [reflexivity|].
    destruct (trailing_slash_guard (lib := Sample.lib) c) as [_ Hbuilt].
    assert (c = mkClient (url.mkURL "http" "" None "localhost:8080" "/museum/"
                                    "" false "" "") userAgent Sample.unreachable)
      as Hc' by (vm_compute in Hc; by injection Hc as <-).
    destruct (Hbuilt "http://localhost:8080/museum" None Hc
                "DELETE" "api/charts/demo/1.0.0" None
                (url.mkURL "http" "" None "localhost:8080"
                           "/museum/api/charts/demo/1.0.0" "" false "" "")
                None
                (http.mkRequest "DELETE"
                   (url.mkURL "http" "" None "localhost:8080"
                              "/museum/api/charts/demo/1.0.0" "" false "" "")
                   ∅ None 0 context.Background))
      as [Hreq _]; [by rewrite Hc' | reflexivity | reflexivity | exact Hreq].
Defined.

(** X4 on the inputs of the examples. *)
Lemma DeleteChart_answered_witness :
  ∃ req response e,
    NewRequest (lib := Sample.lib) (museum (Sample.answering 500 disk_full))
               "DELETE" "api/acme/stable/charts/demo/1.0.0" None = (Some req, None)
    ∧ DeleteChart (lib := Sample.lib) (service (Sample.answering 500 disk_full))
        context.Background (chart "demo" "1.0.0" "acme" "stable")
        (start (chart_file 0))
      = (Val (Some response, Some e),
         mkWorld (chart_file 0)
           [EvNewRequest "DELETE" "api/acme/stable/charts/demo/1.0.0";
            EvDo (http.WithContext context.Background req) ""])
    ∧ Error response = "disk full"
    ∧ Error_text e = "Failed to do delete request: disk full".
Proof.
  destruct (NewRequest (lib := Sample.lib) (museum (Sample.answering 500 disk_full))
              "DELETE" "api/acme/stable/charts/demo/1.0.0" None)
    as [[req|] [e|]] eqn:Hreq; try (vm_compute in Hreq; discriminate).
  assert ("acme" ≠ "" → "stable" ≠ "") as Hvalid by (intros _; discriminate).
  destruct (DeleteChart_answered (lib := Sample.lib)
              (service (Sample.answering 500 disk_full)) context.Background
              "demo" "1.0.0" "acme" "stable" (start (chart_file 0)) req
              (http.mkResponse "" 500 ∅ (http.mkReadCloser disk_full None))
              Hvalid Hreq eq_refl eq_refl) as (Hrun & _ & Htext).
  destruct Htext as (e & He & Htext); [vm_compute; intros [? ?]; done | reflexivity |].
  exists req, (envelope (lib := Sample.lib)
                 (http.mkResponse "" 500 ∅ (http.mkReadCloser disk_full None))), e.
  split; [reflexivity|]. split; [|split; [reflexivity | exact Htext]].
  unfold chart. rewrite Hrun, He. reflexivity.
Defined.

(** X5 on the inputs of the examples. *)
Lemma helper_errors_are_wrapped_witness :
  (deleteChartHelper (lib := Sample.lib) (service Sample.unreachable)
     context.Background "api/charts/demo/1.0.0" (start (chart_file 0))).1
  = Val (None, Some (withMessage (sysError "dial tcp" "" "connection refused")
                                 "Failed to do delete request"))
  ∧ (uploadChartHelper (lib := Sample.lib) (service Sample.unreachable)
       context.Background "api/charts" (start directory)).1
    = Val (None, Some directory_error)
  ∧ ∃ cause,
      (withMessage (sysError "dial tcp" "" "connection refused")
                   "Failed to do delete request"
       = withMessage cause "Failed creating delete request"
       ∧ @None Response = None)
      ∨ withMessage (sysError "dial tcp" "" "connection refused")
                    "Failed to do delete request"
        = withMessage cause "Failed to do delete request".
Proof.
  assert ((deleteChartHelper (lib := Sample.lib) (service Sample.unreachable)
             context.Background "api/charts/demo/1.0.0" (start (chart_file 0))).1
          = Val (None, Some (withMessage (sysError "dial tcp" "" "connection refused")
                                         "Failed to do delete request")))
    as Hdel by reflexivity.
  assert ((uploadChartHelper (lib := Sample.lib) (service Sample.unreachable)
             context.Background "api/charts" (start directory)).1
          = Val (None, Some directory_error)) as Hup by reflexivity.
  split; [exact Hdel|]. split; [exact Hup|].
  destruct (helper_errors_are_wrapped (lib := Sample.lib)
              (service Sample.unreachable) context.Background
              "api/charts/demo/1.0.0" (start (chart_file 0)) None
              (withMessage (sysError "dial tcp" "" "connection refused")
                           "Failed to do delete request")) as (Hwrapped & _ & _).
  exact (Hwrapped Hdel).
Defined.

(** X7 on the inputs of the examples. *)
Lemma operations_do_not_panic_witness :
  well_behaved (httpClient (client (service Sample.unreachable)))
  ∧ (∃ res w', DeleteChart (lib := Sample.lib) (service Sample.unreachable)
                 context.Background (chart "demo" "1.0.0" "" "")
                 (start (chart_file 0)) = (Val res, w'))
  ∧ (∃ res w', UploadChart (lib := Sample.lib) (service Sample.unreachable)
                 context.Background (mkChartInfo None None (Some "") (Some ""))
                 (start (chart_file 0)) = (Val res, w'))
  ∧ (DeleteChart (lib := Sample.lib) (service silent) context.Background
       (chart "demo" "1.0.0" "" "") (start (chart_file 0))).1
    = Panic nil_dereference.
Proof.
  assert (well_behaved (httpClient (client (service Sample.unreachable)))) as Hwb.
  { intros req p. left. cbn. eauto. }
  split; [exact Hwb|].
  destruct (operations_do_not_panic (lib := Sample.lib)
              (service Sample.unreachable) context.Background
              (start (chart_file 0)) Hwb) as [Hdel Hup].
  split; [apply Hdel|]. split; [apply Hup|]. reflexivity.
Defined.

(** X8 on the inputs of the examples. *)
Lemma ChartInfo_String_shapes_witness :
  "acme" ≠ ""
  ∧ ChartInfo_String (lib := Sample.lib) (chart "demo" "1.0.0" "acme" "stable")
      (start (chart_file 0))
    = (Val "acme/stable/demo-1.0.0", start (chart_file 0))
  ∧ ChartInfo_String (lib := Sample.lib) (chart "demo" "1.0.0" "acme" "")
      (start (chart_file 0))
    = (Val "acme//demo-1.0.0", start (chart_file 0)).
Proof.
  assert ("acme" ≠ "") as Hne by discriminate.
  split; [exact Hne|].
  destruct (ChartInfo_String_shapes (lib := Sample.lib) "demo" "1.0.0" "acme"
              "stable" (start (chart_file 0))) as [Hshape Hedge].
  split; [exact Hshape | exact (Hedge Hne)].
Defined.

(** X9 on the inputs of the examples. *)
Lemma detectContentType_sniffs_padded_buffer_witness :
  os.Read (chart_file 3) 512 = (("rest of the archive", None), chart_file 22)
  ∧ os.seekErr (chart_file 3) = None
  ∧ (∃ buffer,
      (detectContentType (lib := Sample.lib) (start (chart_file 3))).1
      = Val (http_DetectContentType (GoLib := Sample.lib) buffer, None)
      ∧ String.length buffer = 512%nat
      ∧ String.prefix "rest of the archive" buffer = true)
  ∧ file (detectContentType (lib := Sample.lib) (start (chart_file 3))).2
    = chart_file 0
  ∧ file (detectContentType (lib := Sample.lib) (start chart_pipe)).2
    = os.set_offset 22 chart_pipe.
Proof.
  assert (os.Read (chart_file 3) 512
          = (("rest of the archive", None), chart_file 22)) as HR by reflexivity.
  assert (os.seekErr (chart_file 3) = None) as Hseek by reflexivity.
  split; [exact HR|]. split; [exact Hseek|].
  destruct (detectContentType_sniffs_padded_buffer (lib := Sample.lib)
              (chart_file 3) [] "rest of the archive" (chart_file 22) HR)
    as (buffer & Hrun & _ & _ & Hlen & Hpre & _ & _ & Hback & _).
  split; [exists buffer; split_and!; [exact Hrun | exact Hlen | exact Hpre]|].
  split; [exact (Hback Hseek)|].
  destruct (detectContentType_sniffs_padded_buffer (lib := Sample.lib)
              chart_pipe [] archive (os.set_offset 22 chart_pipe) eq_refl)
    as (_ & _ & _ & _ & _ & _ & _ & _ & _ & Hstuck).
  exact (Hstuck _ eq_refl).
Defined.


(** X11 on the inputs of the examples. *)
Lemma initConfig_checks_witness :
  curator.initConfig (lib := Sample.lib)
    (SamplePlatform.command_line "" "acme" "" ["demo"; "1.0.0"])
  = (None, Some (fundamental "Repo required if Org is set"))
  ∧ (∃ msg, curator.initConfig (lib := Sample.lib)
              (SamplePlatform.command_line "" "" "" ["demo"; "1.0.0"])
            = (None, Some (withMessage
                             (errorString "ChartMuseum API - base URL can not be blank")
                             msg)))
  ∧ curator.initConfig (lib := Sample.lib)
      (SamplePlatform.command_line "http://localhost:8080" "acme" "stable" [])
    = (Some (curator.mkConfig "http://localhost:8080" "acme" "stable"
               (Some (museum Sample.unreachable))), None).
Proof.
  split_and!.
  - destruct (initConfig_checks (lib := Sample.lib)
                (SamplePlatform.command_line "" "acme" "" ["demo"; "1.0.0"]))
      as (Hreject & _). apply Hreject; [discriminate | reflexivity].
  - destruct (initConfig_checks (lib := Sample.lib)
                (SamplePlatform.command_line "" "" "" ["demo"; "1.0.0"]))
      as (_ & Hwrapped & _).
    destruct (Hwrapped (λ H, False_ind _ (H eq_refl))
                (errorString "ChartMuseum API - base URL can not be blank")
                eq_refl) as (msg & Hrun & _).
    exists msg. exact Hrun.
  - destruct (initConfig_checks (lib := Sample.lib)
                (SamplePlatform.command_line "http://localhost:8080" "acme"
                                             "stable" []))
      as (_ & _ & Hok & _).
    apply (Hok (λ _, ltac:(discriminate)) (museum Sample.unreachable)).
    reflexivity.
Defined.

(** X12 on the inputs of the examples. *)
Lemma initConfig_config_is_usable_witness :
  ∃ config cl,
    curator.initConfig (lib := Sample.lib)
      (SamplePlatform.command_line "http://localhost:8080/museum" "" "stable" [])
    = (Some config, None)
    ∧ curator.Client_ config = Some cl
    ∧ UserAgent cl = "go-chartmuseum"
    ∧ HasSuffix (url.Path (BaseURL cl)) "/" = true.
Proof.
  destruct (curator.initConfig (lib := Sample.lib)
              (SamplePlatform.command_line "http://localhost:8080/museum" ""
                                           "stable" []))
    as [[config|] [e|]] eqn:Hinit; try (vm_compute in Hinit; discriminate).
  destruct (initConfig_config_is_usable (lib := Sample.lib) _ config Hinit)
    as (_ & _ & _ & _ & cl & Hcl & _ & Hua & _ & Hslash).
  exists config, cl. split_and!; [reflexivity | exact Hcl | exact Hua | exact Hslash].
Defined.

(** X13 on the inputs of the examples. *)
Lemma commands_stop_on_config_error_witness :
  curator.deleteCommand (lib := Sample.lib)
    (SamplePlatform.command_line "http://localhost:8080" "acme" "" ["demo"; "1.0.0"])
    []
  = (Val (Some (fundamental "Repo required if Org is set")),
     [Printf ("Repo required if Org is set" +:+ nl); ShowSubcommandHelp])
  ∧ curator.pushCommand (lib := Sample.lib) (sys := SamplePlatform.sys)
      (SamplePlatform.command_line "http://localhost:8080" "acme" "" ["demo"])
      []
    = (Val (Some (fundamental "Repo required if Org is set")),
       [Printf ("Repo required if Org is set" +:+ nl); ShowSubcommandHelp]).
Proof.
  split.
  - destruct (commands_stop_on_config_error (lib := Sample.lib)
                (sys := SamplePlatform.sys)
                (SamplePlatform.command_line "http://localhost:8080" "acme" ""
                                             ["demo"; "1.0.0"])
                [] None (fundamental "Repo required if Org is set") eq_refl)
      as [_ Hdel]. exact Hdel.
  - destruct (commands_stop_on_config_error (lib := Sample.lib)
                (sys := SamplePlatform.sys)
                (SamplePlatform.command_line "http://localhost:8080" "acme" ""
                                             ["demo"])
                [] None (fundamental "Repo required if Org is set") eq_refl)
      as [Hpush _]. exact Hpush.
Defined.

(** X14 on the inputs of the examples. *)
Lemma deleteCommand_reports_and_returns_nil_witness :
  well_behaved (http_DefaultClient (GoLib := Sample.lib))
  ∧ ∃ line,
      curator.deleteCommand (lib := Sample.lib)
        (SamplePlatform.command_line "http://localhost:8080" "acme" "stable"
                                     ["demo"; "1.0.0"]) []
      = (Val None,
         [Library [EvNewRequest "DELETE" "api/acme/stable/charts/demo/1.0.0";
                   EvDo (http.mkRequest "DELETE"
                           (url.mkURL "http" "" None "localhost:8080"
                              "/api/acme/stable/charts/demo/1.0.0" "" false "" "")
                           (<["User-Agent" := ["go-chartmuseum"]]>
                              (<["Accept" := [mediaType]]> ∅))
                           None 0 context.Background) ""];
          Printf line]).
Proof.
  assert (well_behaved (http_DefaultClient (GoLib := Sample.lib))) as Hwb.
  { intros req p. left. cbn. eauto. }
  split; [exact Hwb|].
  destruct (deleteCommand_reports_and_returns_nil (lib := Sample.lib)
              (SamplePlatform.command_line "http://localhost:8080" "acme" "stable"
                                           ["demo"; "1.0.0"]) []
              (curator.mkConfig "http://localhost:8080" "acme" "stable"
                 (Some (museum Sample.unreachable))) eq_refl Hwb)
    as (cl & line & Hcl & Hrun).
  injection Hcl as <-. exists line. rewrite Hrun. reflexivity.
Defined.

(** X15 on the inputs of the examples. *)
Lemma packageAndUpload_removes_temp_dir_witness :
  curator.packageAndUpload (lib := Sample.lib) (sys := SamplePlatform.full_disk)
    context.Background None "demo" []
  = (Val (None, Some (withMessage (sysError "mkdir" "/tmp" "no space left on device")
                                  "Error while preparing temp Dir")),
     [TempDir "" "curator-"])
  ∧ ∃ calls,
      (curator.packageAndUpload (lib := Sample.lib) (sys := SamplePlatform.sys)
         context.Background None "demo" []).2
      = TempDir "" "curator-" :: LoadDir "demo" :: calls
          ++ [RemoveAll "/tmp/curator-1"]
      ∧ (curator.packageAndUpload (lib := Sample.lib) (sys := SamplePlatform.sys)
           context.Background None "demo" []).1 = Panic nil_dereference.
Proof.
  split.
  - destruct (packageAndUpload_removes_temp_dir (lib := Sample.lib)
                (sys := SamplePlatform.full_disk) context.Background None "demo" [])
      as [Hfail _]. exact (Hfail _ eq_refl).
  - destruct (packageAndUpload_removes_temp_dir (lib := Sample.lib)
                (sys := SamplePlatform.sys) context.Background None "demo" [])
      as [_ Hremoved].
    destruct (Hremoved "/tmp/curator-1" eq_refl) as (calls & Hcalls & _).
    exists calls. split; [exact Hcalls | reflexivity].
Defined.

(** X16 on the inputs of the examples. *)
Lemma pushCommand_invalid_chart_dir_witness :
  ∃ msg,
    curator.pushCommand (lib := Sample.lib) (sys := SamplePlatform.sys)
      (SamplePlatform.command_line "http://localhost:8080" "" "" ["notes"]) []
    = (Val (Some (withMessage (errorString "no Chart.yaml exists in directory") msg)),
       [IsChartDir "notes"]).
Proof.
  destruct (pushCommand_invalid_chart_dir (lib := Sample.lib)
              (sys := SamplePlatform.sys)
              (SamplePlatform.command_line "http://localhost:8080" "" "" ["notes"])
              []
              (curator.mkConfig "http://localhost:8080" "" ""
                 (Some (museum Sample.unreachable)))
              (Some (errorString "no Chart.yaml exists in directory"))
              eq_refl eq_refl) as (Hrun & _ & _).
  eexists. rewrite Hrun. reflexivity.
Defined.

(** X17 on the inputs of the examples. *)
Lemma pushCommand_reports_and_returns_nil_witness :
  well_behaved (http_DefaultClient (GoLib := Sample.lib))
  ∧ ∃ line calls,
      curator.pushCommand (lib := Sample.lib) (sys := SamplePlatform.sys)
        (SamplePlatform.command_line "http://localhost:8080" "" "" ["demo"]) []
      = (Val None,
         [IsChartDir "demo"; TempDir "" "curator-"; LoadDir "demo";
          Save "/tmp/curator-1"; Open "/tmp/curator-1/demo-1.0.0.tgz";
          Library calls; RemoveAll "/tmp/curator-1"; Printf line]).
Proof.
  assert (well_behaved (http_DefaultClient (GoLib := Sample.lib))) as Hwb.
  { intros req p. left. cbn. eauto. }
  split; [exact Hwb|].
  destruct (pushCommand_reports_and_returns_nil (lib := Sample.lib)
              (sys := SamplePlatform.sys)
              (SamplePlatform.command_line "http://localhost:8080" "" "" ["demo"])
              []
              (curator.mkConfig "http://localhost:8080" "" ""
                 (Some (museum Sample.unreachable)))
              None eq_refl eq_refl Hwb) as (line & Hrun).
  - intros ch Hch. vm_compute in Hch. injection Hch as <-. cbn. eauto.
  - exists line. eexists. rewrite Hrun. vm_compute. reflexivity.
Defined.

(** X18 on the inputs of the examples. *)
Lemma packageAndUpload_uploads_package_witness :
  ∃ response calls,
    curator.packageAndUpload (lib := Sample.lib) (sys := SamplePlatform.sys)
      context.Background
      (Some (curator.mkConfig "http://localhost:8080" "acme" "stable"
               (Some (museum (Sample.answering 200 saved)))))
      "demo" []
    = (Val (Some response, None),
       [TempDir "" "curator-"; LoadDir "demo"; Save "/tmp/curator-1";
        Open "/tmp/curator-1/demo-1.0.0.tgz";
        Library (EvStat :: EvRead 512 archive :: EvSeek 0 0
                   :: EvNewRequest "POST" "api/acme/stable/charts" :: calls);
        RemoveAll "/tmp/curator-1"])
    ∧ Saved response = true.
Proof.
  pose proof (packageAndUpload_uploads_package (lib := Sample.lib)
                (sys := SamplePlatform.sys) context.Background
                (curator.mkConfig "http://localhost:8080" "acme" "stable"
                   (Some (museum (Sample.answering 200 saved))))
                (museum (Sample.answering 200 saved))
                "demo" "/tmp/curator-1" "/tmp/curator-1/demo-1.0.0.tgz"
                SamplePlatform.demo (chartutil.mkMetadata "demo" "1.0.0")
                (chart_file 0) [] eq_refl eq_refl eq_refl eq_refl eq_refl eq_refl
                (λ _, ltac:(discriminate))) as Hrun.
  cbv zeta in Hrun. do 2 eexists. rewrite Hrun. split.
  - vm_compute. reflexivity.
  - reflexivity.
Defined.
